(** * nps_scraper: campsite availability polling

    A shallow embedding of [src/nps_scraper.py] (class [NPSCampsiteScraper])
    and the properties of its polling loop, availability filter, campground
    search and notification.

    Conventions of the embedding.

    - Python values decoded from JSON are the inductive [pyval]; a [dict] is
      an association list in insertion order, read with [dict_get] (first
      binding of a key) and iterated in order by [.items()].
    - A method of the scraper is a computation in the monad [M]: it receives
      the state of the outside world, may raise a Python exception, and
      yields the list of events it caused.  The outside world is reached
      only through the operations of the class [Runtime].
    - [logging] and [print] calls have no influence on control flow or on
      returned values and are left out. *)

From Stdlib Require Import ZArith List String Ascii Bool Lia.
From ExtLib Require Import Structures.Monad.
Import ListNotations.
Import MonadNotation.

Local Open Scope string_scope.
Local Open Scope Z_scope.
Local Open Scope monad_scope.
#[local] Set Warnings "-register-all".

(** ** Python values *)

(** A value produced by [response.json()].  Numbers keep their literal: no
    branch of the program looks at a number. *)
Inductive pyval : Type :=
| PyNone
| PyBool (b : bool)
| PyNum (literal : string)
| PyStr (s : string)
| PyList (items : list pyval)
| PyDict (items : list (string * pyval)).

(** Python exceptions that the program can meet. *)
Inductive exn : Type :=
| ValueError
| AttributeError
| KeyError
| JSONDecodeError.

Definition exn_eqb (a b : exn) : bool :=
  match a, b with
  | ValueError, ValueError => true
  | AttributeError, AttributeError => true
  | KeyError, KeyError => true
  | JSONDecodeError, JSONDecodeError => true
  | _, _ => false
  end.

(** [d.get(key)] on the bindings of a dict: the first binding of [key]. *)
Fixpoint dict_get {V : Type} (key : string) (d : list (string * V)) : option V :=
  match d with
  | [] => None
  | (k, v) :: d' => if String.eqb k key then Some v else dict_get key d'
  end.

(** ** Pure computations that may raise *)

Inductive res (A : Type) : Type :=
| Ok (a : A)
| Err (e : exn).
Arguments Ok {A} a.
Arguments Err {A} e.

Definition res_bind {A B : Type} (c : res A) (k : A -> res B) : res B :=
  match c with
  | Ok a => k a
  | Err e => Err e
  end.

#[export] Instance Monad_res : Monad res :=
  {| ret := @Ok; bind := @res_bind |}.

(** [x.get(key, default)]: only a dict has the method. *)
Definition py_get (x : pyval) (key : string) (default : pyval) : res pyval :=
  match x with
  | PyDict d =>
      match dict_get key d with
      | Some v => Ok v
      | None => Ok default
      end
  | _ => Err AttributeError
  end.

(** [x.items()]: only a dict has the method. *)
Definition py_items (x : pyval) : res (list (string * pyval)) :=
  match x with
  | PyDict d => Ok d
  | _ => Err AttributeError
  end.

(** [x == s] for a string literal [s]. *)
Definition py_eq_str (x : pyval) (s : string) : bool :=
  match x with
  | PyStr t => String.eqb t s
  | _ => false
  end.

(** ** Strings *)

(** [s.replace('-', '')]. *)
Fixpoint remove_dashes (s : string) : string :=
  match s with
  | EmptyString => EmptyString
  | String c s' =>
      if Ascii.eqb c "-"%char then remove_dashes s'
      else String c (remove_dashes s')
  end.

(** The ASCII characters that [str.strip()] removes. *)
Definition is_space (c : ascii) : bool :=
  let n := nat_of_ascii c in
  ((9 <=? n) && (n <=? 13) || (28 <=? n) && (n <=? 32))%nat.

Fixpoint lstrip (s : string) : string :=
  match s with
  | EmptyString => EmptyString
  | String c s' => if is_space c then lstrip s' else s
  end.

Fixpoint rstrip (s : string) : string :=
  match s with
  | EmptyString => EmptyString
  | String c s' =>
      match rstrip s' with
      | EmptyString => if is_space c then EmptyString else String c EmptyString
      | t => String c t
      end
  end.

(** [s.strip()]. *)
Definition strip (s : string) : string := rstrip (lstrip s).

(** [str(x)] for a value that is [None] or a string, as an f-string
    renders the [data-entity-id] attribute. *)
Definition str_of_option (x : option string) : string :=
  match x with
  | Some s => s
  | None => "None"
  end.

(** ** Data model *)

(** An element selected by [soup.select('.search-result-item')]: its
    attributes, and the text of its first descendant of class
    [entity-name] ([None] when [select_one] finds nothing). *)
Record Tag : Type := {
  attrs : list (string * string);
  entity_name : option string
}.

(** An HTTP response as the program reads it: [status_code], the elements
    of [BeautifulSoup(response.text)] matching [.search-result-item], and
    [response.json()] ([None] when decoding raises). *)
Record Response : Type := {
  status_code : Z;
  search_result_items : list Tag;
  json : option pyval
}.

(** [{'id': ..., 'name': ...}]; the id is [None] when [Tag.get] finds no
    attribute. *)
Record Campground : Type := {
  campground_id : option string;
  campground_name : string
}.

(** [{'site_id': ..., 'site_name': ..., 'type': ...}]. *)
Record Site : Type := {
  site_id : string;
  site_name : pyval;
  site_type : pyval
}.

(** The dict returned by a successful poll. *)
Record PollResult : Type := {
  campground : string;
  available_sites : list Site;
  date : string
}.

(** The [MIMEText] message handed to the mail transport. *)
Record Message : Type := {
  msg_subject : string;
  msg_from : string;
  msg_to : string;
  msg_body : string
}.

(** A parsed calendar date. *)
Record Date : Type := {
  year : Z;
  month : Z;
  day : Z
}.

(** ** Events *)

(** What one run does to the outside world (the first three), and what the
    collaborators of the polling loop handed back to it (the last three,
    recorded at the call sites in [poll_availability]). *)
Inductive event : Type :=
| EvGet (url : string) (params : list (string * string)) (response : Response)
| EvSmtp (msg : Message) (delivered : bool)
| EvSleep (seconds : Z)
| EvResolved (campgrounds : list Campground)
| EvChecked (c : Campground) (sites : list Site)
| EvNotified (c : string) (sites : list Site) (sent : bool).

(** ** The runtime *)

(** The collaborators of the program and the library functions it calls.

    - [session_get]: [self.session.get(url, params=params)], which
      answers every request with a response (a page, or a status that is
      not a success); a connection that fails altogether is not modelled;
    - [smtp_send]: the [with smtplib.SMTP(...)] block, [true] when it runs
      to its end and [false] when any step of it raises;
    - [sleep_world]: the effect of [time.sleep] on the world, a blocking
      delay of any length that is not negative; the limits of the platform
      on the length of a sleep, and on the time of the next poll that the
      log line before it prints, are not modelled;
    - [strptime]: [datetime.strptime(date, "%Y-%m-%d")], [None] when it
      raises [ValueError];
    - [strftime_month]: [.strftime("%Y-%m-01")];
    - [py_str]: [str()], as an f-string applies it. *)
Class Runtime (World : Type) : Type := {
  session_get : string -> list (string * string) -> World -> Response * World;
  smtp_send : Message -> World -> bool * World;
  sleep_world : Z -> World -> World;
  strptime : string -> option Date;
  strftime_month : Date -> string;
  py_str : pyval -> string
}.

(** ** The monad of methods *)

Inductive outcome (A : Type) : Type :=
| Returned (a : A)
| Raised (e : exn)
| OutOfFuel.
Arguments Returned {A} a.
Arguments Raised {A} e.
Arguments OutOfFuel {A}.

Definition M (World A : Type) : Type :=
  World -> outcome A * World * list event.

Definition M_ret {World A : Type} (a : A) : M World A :=
  fun w => (Returned a, w, []).

Definition M_bind {World A B : Type} (c : M World A) (k : A -> M World B)
  : M World B :=
  fun w =>
    match c w with
    | (Returned a, w1, t1) =>
        match k a w1 with
        | (o, w2, t2) => (o, w2, (t1 ++ t2)%list)
        end
    | (Raised e, w1, t1) => (Raised e, w1, t1)
    | (OutOfFuel, w1, t1) => (OutOfFuel, w1, t1)
    end.

#[export] Instance Monad_M (World : Type) : Monad (M World) :=
  {| ret := @M_ret World; bind := @M_bind World |}.

Definition raise {World A : Type} (e : exn) : M World A :=
  fun w => (Raised e, w, []).

Definition emit {World : Type} (e : event) : M World unit :=
  fun w => (Returned tt, w, [e]).

(** A pure computation run as a method. *)
Definition lift {World A : Type} (c : res A) : M World A :=
  match c with
  | Ok a => M_ret a
  | Err e => raise e
  end.

(** [try: body except (e1, e2, ...): handler]. *)
Definition try_except {World A : Type} (body : M World A)
    (caught : list exn) (handler : M World A) : M World A :=
  fun w =>
    match body w with
    | (Raised e, w1, t1) =>
        if existsb (exn_eqb e) caught then
          match handler w1 with
          | (o, w2, t2) => (o, w2, (t1 ++ t2)%list)
          end
        else (Raised e, w1, t1)
    | r => r
    end.

(** Run [c] and record what it returned. *)
Definition observing {World A : Type} (ev : A -> event) (c : M World A)
  : M World A :=
  a <- c ;; emit (ev a) ;; ret a.

(** ** The scraper *)

Section Scraper.

Context {World : Type} `{RT : Runtime World}.

#[local] Abbreviation Meth := (M World).

(** [self.session.get(url, params=params)]. *)
Definition get (url : string) (params : list (string * string)) : Meth Response :=
  fun w =>
    match session_get url params w with
    | (response, w') => (Returned response, w', [EvGet url params response])
    end.

(** The [with smtplib.SMTP(...) as server] block. *)
Definition smtp (msg : Message) : Meth bool :=
  fun w =>
    match smtp_send msg w with
    | (delivered, w') => (Returned delivered, w', [EvSmtp msg delivered])
    end.

(** [time.sleep(seconds)]: a negative length raises [ValueError]. *)
Definition time_sleep (seconds : Z) : Meth unit :=
  if seconds <? 0 then raise ValueError
  else fun w => (Returned tt, sleep_world seconds w, [EvSleep seconds]).

(** [self.base_url]. *)
Definition base_url : string := "https://www.recreation.gov".

(** *** [search_campgrounds] *)

(** The body of the [try] of one search result.  [result.get] yields
    [None] for a missing attribute; [select_one] yields [None] for a
    missing element, whose [.text] raises [AttributeError]. *)
Definition parse_result (result : Tag) : res Campground :=
  let campground_id := dict_get "data-entity-id" (attrs result) in
  match entity_name result with
  | None => Err AttributeError
  | Some text =>
      let campground_name := strip text in
      Ok {| campground_id := campground_id;
            campground_name := campground_name |}
  end.

(** The [for result in search_results] loop, with its
    [except (AttributeError, KeyError): continue]. *)
Fixpoint parse_results (search_results : list Tag)
    (campgrounds : list Campground) : res (list Campground) :=
  match search_results with
  | [] => Ok campgrounds
  | result :: rest =>
      match parse_result result with
      | Ok c => parse_results rest (campgrounds ++ [c])%list
      | Err e =>
          if existsb (exn_eqb e) [AttributeError; KeyError]
          then parse_results rest campgrounds
          else Err e
      end
  end.

Definition search_campgrounds (park_name : string) : Meth (list Campground) :=
  let search_url := base_url ++ "/search" in
  let params := [("q", park_name ++ " campground");
                 ("entity_type", "campground")] in
  response <- get search_url params ;;
  if negb (status_code response =? 200) then ret []
  else lift (parse_results (search_result_items response) []).

(** *** [check_availability] *)

(** One pass of the [for site_id, site_data in campsites.items()] loop:
    the site to append, if any. *)
Definition check_site (target_date : string) (site_id : string)
    (site_data : pyval) : res (option Site) :=
  availabilities <- py_get site_data "availabilities" (PyDict []) ;;
  availability <- py_get availabilities target_date (PyStr "") ;;
  if py_eq_str availability "Available" then
    site_name <- py_get site_data "site" (PyStr ("Site " ++ site_id)) ;;
    type <- py_get site_data "type" (PyStr "Unknown") ;;
    ret (Some {| site_id := site_id;
                 site_name := site_name;
                 site_type := type |})
  else ret None.

Fixpoint collect_sites (target_date : string)
    (campsites : list (string * pyval)) (available_sites : list Site)
  : res (list Site) :=
  match campsites with
  | [] => Ok available_sites
  | (site_id, site_data) :: rest =>
      found <- check_site target_date site_id site_data ;;
      match found with
      | Some site =>
          collect_sites target_date rest (available_sites ++ [site])%list
      | None => collect_sites target_date rest available_sites
      end
  end.

(** The body of the [try] block. *)
Definition read_availability (response : Response) (date : string)
  : res (list Site) :=
  availability_data <-
    match json response with
    | Some v => Ok v
    | None => Err JSONDecodeError
    end ;;
  campsites <- py_get availability_data "campsites" (PyDict []) ;;
  let target_date := remove_dashes date in
  items <- py_items campsites ;;
  collect_sites target_date items [].

Definition check_availability (campground_id : option string)
    (date : string) : Meth (list Site) :=
  let availability_url :=
    base_url ++ "/api/camps/availability/campground/"
             ++ str_of_option campground_id ++ "/month" in
  match strptime date with
  | None => raise ValueError
  | Some parsed =>
      let formatted_date := strftime_month parsed in
      let params := [("start_date", formatted_date)] in
      response <- get availability_url params ;;
      if negb (status_code response =? 200) then ret []
      else
        try_except (lift (read_availability response date))
                   [JSONDecodeError; KeyError]
                   (ret [])
  end.

(** *** [send_notification] *)

(** The lines appended to the body, one per site. *)
Fixpoint site_lines (available_sites : list Site) : string :=
  match available_sites with
  | [] => ""
  | site :: rest =>
      "- " ++ py_str (site_name site) ++ " (Type: "
           ++ py_str (site_type site) ++ ")" ++ String "010" ""
           ++ site_lines rest
  end.

Definition send_notification (email : string) (campground_name : string)
    (available_sites : list Site) (date : string) : Meth bool :=
  match available_sites with
  | [] => ret false
  | first :: _ =>
      let sender := "nps_scraper@example.com" in
      let recipient := email in
      let subject :=
        "Campsite Available: " ++ campground_name ++ " on " ++ date in
      let body :=
        "Good news! The following campsites are available at "
          ++ campground_name ++ " on " ++ date ++ ":"
          ++ String "010" (String "010" "")
          ++ site_lines available_sites
          ++ String "010" "" ++ "Book now at: " ++ base_url
          ++ "/camping/campgrounds/" ++ site_id first ++ String "010" "" in
      let msg := {| msg_subject := subject; msg_from := sender;
                    msg_to := recipient; msg_body := body |} in
      delivered <- smtp msg ;;
      if delivered then ret true else ret false
  end.

(** *** [poll_availability] *)

(** [if email:] holds for a string that is not empty. *)
Definition truthy (email : option string) : option string :=
  match email with
  | Some s => if String.eqb s "" then None else Some s
  | None => None
  end.

(** The [for campground in campgrounds] loop; [Some] is its [return]. *)
Fixpoint scan_campgrounds (date : string) (email : option string)
    (campgrounds : list Campground) : Meth (option PollResult) :=
  match campgrounds with
  | [] => ret None
  | campground :: rest =>
      available_sites <-
        observing (EvChecked campground)
          (check_availability (campground_id campground) date) ;;
      match available_sites with
      | _ :: _ =>
          match truthy email with
          | Some email =>
              observing
                (EvNotified (campground_name campground) available_sites)
                (send_notification email (campground_name campground)
                   available_sites date) ;;
              ret tt
          | None => ret tt
          end ;;
          ret (Some {| campground := campground_name campground;
                       available_sites := available_sites;
                       date := date |})
      | [] => scan_campgrounds date email rest
      end
  end.

(** One pass of the body of [while attempts < max_attempts]: the value
    returned from inside the loop, or the new value of [attempts]. *)
Definition poll_attempt (park_name date : string) (interval : Z)
    (email : option string) (max_attempts : Z) (attempts : Z)
  : Meth (PollResult + Z) :=
  campgrounds <- observing EvResolved (search_campgrounds park_name) ;;
  hit <- scan_campgrounds date email campgrounds ;;
  match hit with
  | Some result => ret (inl result)
  | None =>
      let attempts := attempts + 1 in
      (if attempts <? max_attempts then time_sleep interval else ret tt) ;;
      ret (inr attempts)
  end.

(** The [while] loop, unrolled at most [fuel] times. *)
Fixpoint poll_loop (fuel : nat) (park_name date : string) (interval : Z)
    (email : option string) (max_attempts : Z) (attempts : Z)
  : Meth (option PollResult) :=
  match fuel with
  | O => fun w => (OutOfFuel, w, [])
  | S fuel' =>
      if attempts <? max_attempts then
        step <- poll_attempt park_name date interval email
                  max_attempts attempts ;;
        match step with
        | inl result => ret (Some result)
        | inr attempts =>
            poll_loop fuel' park_name date interval email
              max_attempts attempts
        end
      else ret None
  end.

Definition poll_availability (park_name date : string) (interval : Z)
    (email : option string) (max_attempts : Z) : Meth (option PollResult) :=
  let attempts := 0 in
  poll_loop (S (Z.to_nat max_attempts)) park_name date interval email
    max_attempts attempts.

End Scraper.

(** ** A scripted runtime *)

(** A world that can be written down: the responses the transports will
    give, in order, and whether the mail relay accepts a message.  It is
    used to run the program on concrete inputs. *)
Module Scripted.

Record World : Type := {
  pending : list Response;
  relay_up : bool;
  slept : Z
}.

(** The response once the script is used up. *)
Definition not_found : Response :=
  {| status_code := 404; search_result_items := []; json := None |}.

Definition scripted_get (url : string) (params : list (string * string))
    (w : World) : Response * World :=
  match pending w with
  | [] => (not_found, w)
  | r :: rest =>
      (r, {| pending := rest; relay_up := relay_up w; slept := slept w |})
  end.

Definition scripted_send (msg : Message) (w : World) : bool * World :=
  (relay_up w, w).

Definition scripted_sleep (seconds : Z) (w : World) : World :=
  {| pending := pending w; relay_up := relay_up w;
     slept := slept w + seconds |}.

(** *** [datetime.strptime(date, "%Y-%m-%d")] on ASCII text *)

Definition digit (c : ascii) : option Z :=
  let n := Z.of_nat (nat_of_ascii c) in
  if (48 <=? n) && (n <=? 57) then Some (n - 48) else None.

(** [%m]: the alternatives [1[0-2]], [0[1-9]], [[1-9]], in this order. *)
Definition parse_month (s : string) : option (Z * string) :=
  match s with
  | String a (String b rest) =>
      match digit a, digit b with
      | Some 1, Some y => if y <=? 2 then Some (10 + y, rest)
                          else Some (1, String b rest)
      | Some 0, Some y => if 1 <=? y then Some (y, rest) else None
      | Some x, _ => if 1 <=? x then Some (x, String b rest) else None
      | None, _ => None
      end
  | String a rest =>
      match digit a with
      | Some x => if 1 <=? x then Some (x, rest) else None
      | None => None
      end
  | EmptyString => None
  end.

(** [%d]: the alternatives [3[0-1]], [[1-2]\d], [0[1-9]], [[1-9]],
    [ [1-9]], in this order. *)
Definition parse_day (s : string) : option (Z * string) :=
  match s with
  | String a (String b rest) =>
      match digit a, digit b with
      | Some 3, Some y => if y <=? 1 then Some (30 + y, rest)
                          else Some (3, String b rest)
      | Some 0, Some y => if 1 <=? y then Some (y, rest) else None
      | Some x, Some y => if x <=? 2 then Some (10 * x + y, rest)
                          else Some (x, String b rest)
      | Some x, None => if 1 <=? x then Some (x, String b rest) else None
      | None, Some y =>
          if Ascii.eqb a " "%char && (1 <=? y) then Some (y, rest) else None
      | None, None => None
      end
  | String a rest =>
      match digit a with
      | Some x => if 1 <=? x then Some (x, rest) else None
      | None => None
      end
  | EmptyString => None
  end.

Definition is_leap (y : Z) : bool :=
  ((y mod 4 =? 0) && negb (y mod 100 =? 0)) || (y mod 400 =? 0).

Definition days_in_month (y m : Z) : Z :=
  if m =? 2 then (if is_leap y then 29 else 28)
  else if (m =? 4) || (m =? 6) || (m =? 9) || (m =? 11) then 30
  else 31.

Definition scripted_strptime (s : string) : option Date :=
  match s with
  | String a (String b (String c (String d (String dash rest)))) =>
      match digit a, digit b, digit c, digit d with
      | Some a, Some b, Some c, Some d =>
          let y := 1000 * a + 100 * b + 10 * c + d in
          if negb (Ascii.eqb dash "-"%char) then None else
          match parse_month rest with
          | Some (m, String dash' rest') =>
              if negb (Ascii.eqb dash' "-"%char) then None else
              match parse_day rest' with
              | Some (dd, EmptyString) =>
                  if (1 <=? y) && (dd <=? days_in_month y m)
                  then Some {| year := y; month := m; day := dd |}
                  else None
              | _ => None
              end
          | _ => None
          end
      | _, _, _, _ => None
      end
  | _ => None
  end.

Definition digit_char (n : Z) : ascii :=
  ascii_of_nat (Z.to_nat (48 + n mod 10)).

(** [.strftime("%Y-%m-01")], the year on four digits. *)
Definition scripted_strftime (d : Date) : string :=
  let y := year d in
  let m := month d in
  String (digit_char (y / 1000)) (String (digit_char (y / 100))
    (String (digit_char (y / 10)) (String (digit_char y)
      (String "-" (String (digit_char (m / 10)) (String (digit_char m)
        "-01")))))).

(** [str()] of a string, [None], a boolean or a number; a list or a dict
    is rendered by its type name only. *)
Definition scripted_str (v : pyval) : string :=
  match v with
  | PyNone => "None"
  | PyBool true => "True"
  | PyBool false => "False"
  | PyNum literal => literal
  | PyStr s => s
  | PyList _ => "list"
  | PyDict _ => "dict"
  end.

#[global] Instance runtime : Runtime World := {|
  session_get := scripted_get;
  smtp_send := scripted_send;
  sleep_world := scripted_sleep;
  strptime := scripted_strptime;
  strftime_month := scripted_strftime;
  py_str := scripted_str
|}.

(** A world that answers with [responses] and whose relay is up. *)
Definition world (responses : list Response) : World :=
  {| pending := responses; relay_up := true; slept := 0 |}.

(** *** Responses *)

Definition search_page (items : list Tag) : Response :=
  {| status_code := 200; search_result_items := items; json := None |}.

Definition json_page (body : pyval) : Response :=
  {| status_code := 200; search_result_items := []; json := Some body |}.

Definition result_item (id name : string) : Tag :=
  {| attrs := [("class", "search-result-item"); ("data-entity-id", id)];
     entity_name := Some name |}.

(** One site of the availability body, with the given per-day statuses. *)
Definition raw_site (fields : list (string * pyval))
    (days : list (string * string)) : pyval :=
  PyDict (fields ++
          [("availabilities",
            PyDict (map (fun kv => (fst kv, PyStr (snd kv))) days))])%list.

Definition availability_body (sites : list (string * pyval)) : pyval :=
  PyDict [("campsites", PyDict sites)].

End Scripted.

(** ** Concrete inputs *)

Module Examples.

Import Scripted.

Definition july_15 : string := "2024-07-15".

Definition upper_pines : Campground :=
  {| campground_id := Some "232447"; campground_name := "Upper Pines" |}.

Definition lower_pines : Campground :=
  {| campground_id := Some "232450"; campground_name := "Lower Pines" |}.

(** A search page with one campground. *)
Definition one_campground : Response :=
  search_page [result_item "232447" "Upper Pines"].

(** A search page with two campgrounds. *)
Definition two_campgrounds : Response :=
  search_page [result_item "232447" "Upper Pines";
               result_item "232450" "Lower Pines"].

(** A search page without results. *)
Definition no_campground : Response := search_page [].

(** A search page whose only result has a name and no [data-entity-id]. *)
Definition result_without_id : Response :=
  search_page [{| attrs := [("class", "search-result-item")];
                  entity_name := Some "Upper Pines" |}].

(** A search page whose first result has no [.entity-name] element. *)
Definition result_without_name : Response :=
  search_page [{| attrs := [("class", "search-result-item");
                            ("data-entity-id", "232447")];
                  entity_name := None |};
               result_item "232450" "Lower Pines"].

(** A month in which nothing is free on 15 July. *)
Definition july_full : Response :=
  json_page (availability_body
    [("A1", raw_site [("site", PyStr "A1"); ("type", PyStr "Tent")]
              [("20240714", "Available"); ("20240715", "Reserved");
               ("20240716", "Available")])]).

(** A month in which the site A1 is free on 15 July. *)
Definition july_a1 : Response :=
  json_page (availability_body
    [("A1", raw_site [("site", PyStr "A1"); ("type", PyStr "Tent")]
              [("20240715", "Available")])]).

Definition site_a1 : Site :=
  {| site_id := "A1"; site_name := PyStr "A1"; site_type := PyStr "Tent" |}.

(** The records of [july_mixed]: free on the day; free on other days only;
    another status on the day; no status for the day; free, without name
    and type; free, with an empty name and a null type. *)
Definition mixed_sites : list (string * pyval) :=
  [("A1", raw_site [("site", PyStr "A1"); ("type", PyStr "Tent")]
            [("20240715", "Available")]);
   ("B2", raw_site [("site", PyStr "B2"); ("type", PyStr "Tent")]
            [("20240714", "Available"); ("20240715", "Reserved");
             ("20240716", "Available")]);
   ("C3", raw_site [("site", PyStr "C3"); ("type", PyStr "RV")]
            [("20240715", "Not Available")]);
   ("D4", raw_site [("site", PyStr "D4"); ("type", PyStr "RV")]
            [("20240714", "Available")]);
   ("42", raw_site [] [("20240715", "Available")]);
   ("E5", raw_site [("site", PyStr ""); ("type", PyNone)]
            [("20240715", "Available")])].

Definition july_mixed : Response :=
  json_page (availability_body mixed_sites).

(** A decoded body in which one record is not an object. *)
Definition july_misshaped : Response :=
  json_page (availability_body
    [("A1", raw_site [("site", PyStr "A1")] [("20240715", "Available")]);
     ("B2", PyNum "5")]).

End Examples.

(** ** Running a method *)

Definition result_of {World A : Type} (r : outcome A * World * list event)
  : outcome A := fst (fst r).


Definition trace_of {World A : Type} (r : outcome A * World * list event)
  : list event := snd r.


(** ** Vocabulary of the statements *)

(** The status entry of a raw site record for one day, when the record has
    one. *)
Definition day_status (target_date : string) (site_data : pyval)
  : option pyval :=
  match site_data with
  | PyDict fields =>
      match dict_get "availabilities" fields with
      | Some (PyDict days) => dict_get target_date days
      | _ => None
      end
  | _ => None
  end.

(** The status entry for the day is the string "Available". *)
Definition available_on (target_date : string) (site_data : pyval) : bool :=
  match day_status target_date site_data with
  | Some (PyStr s) => String.eqb s "Available"
  | _ => false
  end.

(** A field of a raw site record, or [default] when the record has no such
    key. *)
Definition field_or (key : string) (default : pyval) (site_data : pyval)
  : pyval :=
  match site_data with
  | PyDict fields =>
      match dict_get key fields with
      | Some v => v
      | None => default
      end
  | _ => default
  end.

(** The site under which a raw record surfaces. *)
Definition surfaced (entry : string * pyval) : Site :=
  {| site_id := fst entry;
     site_name := field_or "site" (PyStr ("Site " ++ fst entry)) (snd entry);
     site_type := field_or "type" (PyStr "Unknown") (snd entry) |}.

(** The sites whose status entry for the day is "Available", in the order
    of the response. *)
Definition sites_available_on (target_date : string)
    (campsites : list (string * pyval)) : list Site :=
  map surfaced
    (filter (fun entry => available_on target_date (snd entry)) campsites).

(** A raw site record of the shape the availability endpoint gives: an
    object whose [availabilities], when present, is an object.  Any key
    may be missing, and the statuses, the name and the type may be any
    value. *)
Definition site_shaped (site_data : pyval) : bool :=
  match site_data with
  | PyDict fields =>
      match dict_get "availabilities" fields with
      | Some (PyDict _) => true
      | Some _ => false
      | None => true
      end
  | _ => false
  end.

(** The per-site map of a decoded body: the object under [campsites], the
    empty map when the body is an object without that key. *)
Definition campsites_of (body : pyval) : option (list (string * pyval)) :=
  match body with
  | PyDict top =>
      match dict_get "campsites" top with
      | Some (PyDict sites) => Some sites
      | Some _ => None
      | None => Some []
      end
  | _ => None
  end.

(** A decoded body of the shape the availability endpoint gives: an
    object whose [campsites], when present, is a per-site map of such
    records.  On a decoded body of any other shape [check_availability]
    raises [AttributeError] (lemma [check_availability_run]). *)
Definition body_shaped (body : pyval) : bool :=
  match campsites_of body with
  | Some sites => forallb (fun entry => site_shaped (snd entry)) sites
  | None => false
  end.

(** The events of a trace that are requests to the search or availability
    endpoint. *)
Definition is_query (e : event) : bool :=
  match e with
  | EvGet _ _ _ => true
  | _ => false
  end.

(** The events of a trace that are calls of the mail transport. *)
Definition is_mail (e : event) : bool :=
  match e with
  | EvSmtp _ _ => true
  | _ => false
  end.

(** The events of a trace that are invocations of [send_notification]. *)
Definition is_notification (e : event) : bool :=
  match e with
  | EvNotified _ _ _ => true
  | _ => false
  end.

(** The events of a trace that are results of [check_availability]. *)
Definition is_check (e : event) : bool :=
  match e with
  | EvChecked _ _ => true
  | _ => false
  end.

(** The campground a search result yields: none when it has no
    [.entity-name] element. *)
Definition campground_of_item (item : Tag) : list Campground :=
  match entity_name item with
  | Some text =>
      [{| campground_id := dict_get "data-entity-id" (attrs item);
          campground_name := strip text |}]
  | None => []
  end.

(** What the resolver makes of a search response. *)
Definition resolved (response : Response) : list Campground :=
  if negb (status_code response =? 200) then []
  else flat_map campground_of_item (search_result_items response).

(** The first event of a trace in which [check_availability] handed back a
    list that is not empty, with the events after it. *)
Fixpoint first_hit (tr : list event)
  : option (Campground * list Site * list event) :=
  match tr with
  | [] => None
  | EvChecked c (s :: sites) :: tr' => Some (c, s :: sites, tr')
  | _ :: tr' => first_hit tr'
  end.

(** The number of invocations of [send_notification] in a trace. *)
Definition notifications (tr : list event) : nat :=
  List.length (filter is_notification tr).

(** A request to the search endpoint. *)
Definition is_search_query (e : event) : bool :=
  match e with
  | EvGet url _ _ => String.eqb url (base_url ++ "/search")
  | _ => false
  end.

(** A request to any other endpoint, that is, to the availability
    endpoint. *)
Definition is_availability_query (e : event) : bool :=
  is_query e && negb (is_search_query e).

(** The events of an attempt in which the resolver yields nothing: the
    search request, its empty result, and the pause. *)
Definition is_idle (e : event) : bool :=
  match e with
  | EvGet _ _ _ => is_search_query e
  | EvResolved [] => true
  | EvSleep _ => true
  | _ => false
  end.

(** The attempts and pauses of a run, in order.  An attempt is one pass of
    the body of the [while] loop; each pass resolves the campgrounds of the
    park once. *)
Inductive mark : Type :=
| Attempt
| Pause (seconds : Z).

Fixpoint schedule (tr : list event) : list mark :=
  match tr with
  | [] => []
  | EvResolved _ :: tr' => Attempt :: schedule tr'
  | EvSleep seconds :: tr' => Pause seconds :: schedule tr'
  | _ :: tr' => schedule tr'
  end.

Definition is_attempt (m : mark) : bool :=
  match m with
  | Attempt => true
  | Pause _ => false
  end.

(** The number of attempts of a run. *)
Definition attempts_run (tr : list event) : nat :=
  List.length (filter is_attempt (schedule tr)).

(** [n] attempts with a pause of [interval] between consecutive ones, and
    none after the last. *)
Fixpoint spaced_attempts (n : nat) (interval : Z) : list mark :=
  match n with
  | O => []
  | S n' =>
      Attempt ::
      match n' with
      | O => []
      | S _ => Pause interval :: spaced_attempts n' interval
      end
  end.

(** Where a run stands in its current attempt: the campgrounds the resolver
    gave last, and how many of them have been checked since. *)
Definition track (position : option (list Campground * nat)) (e : event)
  : option (list Campground * nat) :=
  match e with
  | EvResolved campgrounds => Some (campgrounds, O)
  | EvChecked _ _ =>
      match position with
      | Some (campgrounds, k) => Some (campgrounds, S k)
      | None => None
      end
  | _ => position
  end.

Definition position_after (tr : list event)
  : option (list Campground * nat) :=
  fold_left track tr None.

(** Every check of a trace is made for the campground that comes next in
    the list the resolver gave last, starting from [position]. *)
Fixpoint in_resolver_order (position : option (list Campground * nat))
    (tr : list event) : Prop :=
  match tr with
  | [] => True
  | e :: tr' =>
      match e with
      | EvChecked c _ =>
          match position with
          | Some (campgrounds, k) => nth_error campgrounds k = Some c
          | None => False
          end
      | _ => True
      end /\
      in_resolver_order (track position e) tr'
  end.

(** The states of the polling loop.  [visits ... attempts w] holds when one
    run of [poll_availability] from the world [w0] evaluates the test of
    its [while] loop with the counter at [attempts] in the world [w]. *)
Section PollStates.

Context {World : Type} `{RT : Runtime World}.
Variables (park_name date : string) (interval : Z) (email : option string).
Variables (max_attempts : Z) (w0 : World).

Inductive visits : Z -> World -> Prop :=
| visits_start : visits 0 w0
| visits_next (attempts : Z) (w : World) (attempts' : Z) (w' : World)
    (tr : list event) :
    visits attempts w ->
    attempts < max_attempts ->
    poll_attempt park_name date interval email max_attempts attempts w =
      (Returned (inr attempts'), w', tr) ->
    visits attempts' w'.

End PollStates.

(** The campgrounds that a run checked, in order. *)
Fixpoint checked_campgrounds (tr : list event) : list Campground :=
  match tr with
  | [] => []
  | EvChecked c _ :: tr' => c :: checked_campgrounds tr'
  | _ :: tr' => checked_campgrounds tr'
  end.

(** The campgrounds that the resolver gave in a run, attempt after
    attempt. *)
Fixpoint resolved_campgrounds (tr : list event) : list Campground :=
  match tr with
  | [] => []
  | EvResolved campgrounds :: tr' =>
      (campgrounds ++ resolved_campgrounds tr')%list
  | _ :: tr' => resolved_campgrounds tr'
  end.

(** ** Running computations: basic facts *)

Section RunFacts.

Context {World : Type}.

Lemma run_bind {A B : Type} (c : M World A) (k : A -> M World B) (w : World) :
  (x <- c ;; k x) w =
  match c w with
  | (Returned a, w1, t1) =>
      match k a w1 with
      | (o, w2, t2) => (o, w2, (t1 ++ t2)%list)
      end
  | (Raised e, w1, t1) => (Raised e, w1, t1)
  | (OutOfFuel, w1, t1) => (OutOfFuel, w1, t1)
  end.
Proof. reflexivity. Qed.

Lemma run_ret {A : Type} (a : A) (w : World) :
  (ret a : M World A) w = (Returned a, w, []).
Proof. reflexivity. Qed.

Lemma run_lift_ok {A : Type} (a : A) (w : World) :
  lift (Ok a) w = (Returned a, w, []).
Proof. reflexivity. Qed.

Lemma run_lift_err {A : Type} (e : exn) (w : World) :
  @lift World A (Err e) w = (Raised e, w, []).
Proof. reflexivity. Qed.

Lemma run_observing {A : Type} (ev : A -> event) (c : M World A) (w : World) :
  observing ev c w =
  match c w with
  | (Returned a, w1, t1) => (Returned a, w1, (t1 ++ [ev a])%list)
  | (Raised e, w1, t1) => (Raised e, w1, t1)
  | (OutOfFuel, w1, t1) => (OutOfFuel, w1, t1)
  end.
Proof.
  unfold observing. rewrite run_bind.
  destruct (c w) as [[[a | e |] w1] t1]; reflexivity.
Qed.

End RunFacts.

(** ** The availability filter *)

Section AvailabilityFacts.

Context {World : Type} `{RT : Runtime World}.

Lemma py_get_dict (fields : list (string * pyval)) (key : string)
    (default : pyval) :
  py_get (PyDict fields) key default =
  Ok (field_or key default (PyDict fields)).
Proof.
  unfold py_get, field_or. destruct (dict_get key fields); reflexivity.
Qed.

(** One pass of the loop: a shaped record is kept exactly when its status
    for the day is "Available"; any other record raises. *)
Lemma check_site_spec (target_date site_id : string) (site_data : pyval) :
  check_site target_date site_id site_data =
  if site_shaped site_data then
    Ok (if available_on target_date site_data
        then Some (surfaced (site_id, site_data)) else None)
  else Err AttributeError.
Proof.
  unfold check_site, site_shaped, available_on, day_status, surfaced.
  destruct site_data as [| b | n | s | l | fields]; try reflexivity.
  cbn [bind Monad_res res_bind py_get].
  destruct (dict_get "availabilities" fields) as [av |] eqn:Hav; cbn.
  - destruct av as [| b | n | s | l | days]; try reflexivity.
    cbn. destruct (dict_get target_date days) as [st |]; cbn.
    + destruct st as [| b | n | s | l | d]; cbn; try reflexivity.
      destruct (String.eqb s "Available"); cbn; [| reflexivity].
      destruct (dict_get "site" fields), (dict_get "type" fields); reflexivity.
    + reflexivity.
  - reflexivity.
Qed.

Lemma collect_sites_spec (target_date : string)
    (campsites : list (string * pyval)) :
  forall available_sites,
    collect_sites target_date campsites available_sites =
    if forallb (fun entry => site_shaped (snd entry)) campsites
    then Ok (available_sites ++ sites_available_on target_date campsites)%list
    else Err AttributeError.
Proof.
  induction campsites as [| [site_id site_data] rest IH]; intros acc.
  - cbn. rewrite app_nil_r. reflexivity.
  - cbn [collect_sites forallb snd]. rewrite check_site_spec.
    destruct (site_shaped site_data); cbn [bind Monad_res res_bind andb];
      [| reflexivity].
    unfold sites_available_on. cbn [filter snd].
    destruct (available_on target_date site_data).
    + rewrite IH. destruct (forallb _ rest); [| reflexivity].
      cbn [map]. rewrite <- app_assoc. reflexivity.
    + rewrite IH. reflexivity.
Qed.

(** The [try] block as a whole. *)
Lemma read_availability_spec (response : Response) (date : string) :
  read_availability response date =
  match json response with
  | None => Err JSONDecodeError
  | Some body =>
      match campsites_of body with
      | Some campsites =>
          if forallb (fun entry => site_shaped (snd entry)) campsites
          then Ok (sites_available_on (remove_dashes date) campsites)
          else Err AttributeError
      | None => Err AttributeError
      end
  end.
Proof.
  unfold read_availability, campsites_of.
  destruct (json response) as [body |]; [| reflexivity].
  cbn [bind Monad_res res_bind].
  destruct body as [| b | n | s | l | top]; try reflexivity.
  cbn [py_get].
  destruct (dict_get "campsites" top) as [cs |]; cbn.
  - destruct cs as [| b | n | s | l | sites]; try reflexivity.
    cbn. apply collect_sites_spec.
  - reflexivity.
Qed.

(** What [check_availability] does with each kind of response, for a date
    that parses. *)
Lemma check_availability_run (campground_id : option string) (date : string)
    (parsed : Date) (w : World) :
  strptime date = Some parsed ->
  let url := base_url ++ "/api/camps/availability/campground/"
               ++ str_of_option campground_id ++ "/month" in
  let params := [("start_date", strftime_month parsed)] in
  let response := fst (session_get url params w) in
  let w' := snd (session_get url params w) in
  check_availability campground_id date w =
  (if negb (status_code response =? 200) then Returned []
   else match json response with
        | None => Returned []
        | Some body =>
            if body_shaped body
            then Returned (sites_available_on (remove_dashes date)
                             (match campsites_of body with
                              | Some campsites => campsites
                              | None => []
                              end))
            else Raised AttributeError
        end,
   w', [EvGet url params response]).
Proof.
  intros Hdate. cbn zeta. unfold check_availability. rewrite Hdate.
  rewrite run_bind. unfold get.
  destruct (session_get _ _ w) as [response w'] eqn:Hget. cbn [fst snd].
  destruct (negb (status_code response =? 200)); [reflexivity |].
  unfold try_except. rewrite read_availability_spec. unfold body_shaped.
  destruct (json response) as [body |]; [| reflexivity].
  destruct (campsites_of body) as [campsites |]; [| reflexivity].
  destruct (forallb _ campsites); reflexivity.
Qed.

End AvailabilityFacts.

(** ** [check_availability]: the claims *)

Section AvailabilityClaims.

Context {World : Type} `{RT : Runtime World}.

Lemma available_on_iff (target_date : string) (site_data : pyval) :
  available_on target_date site_data = true <->
  day_status target_date site_data = Some (PyStr "Available").
Proof.
  unfold available_on.
  destruct (day_status target_date site_data) as [[| b | n | s | l | d] |];
    try (split; [discriminate | intros H; inversion H]).
  - split.
    + intros H. apply String.eqb_eq in H. now subst.
    + intros H. inversion H. apply String.eqb_refl.
Qed.

Lemma in_sites_available_on (target_date : string)
    (campsites : list (string * pyval)) (s : Site) :
  In s (sites_available_on target_date campsites) <->
  exists site_id site_data,
    In (site_id, site_data) campsites /\
    day_status target_date site_data = Some (PyStr "Available") /\
    s = surfaced (site_id, site_data).
Proof.
  unfold sites_available_on. rewrite in_map_iff. split.
  - intros [[site_id site_data] [Hs Hin]]. apply filter_In in Hin.
    destruct Hin as [Hin Hav]. cbn [snd] in Hav.
    apply available_on_iff in Hav. exists site_id, site_data. auto.
  - intros (site_id & site_data & Hin & Hav & Hs).
    exists (site_id, site_data). split; [auto |].
    apply filter_In. split; [exact Hin |]. cbn [snd].
    now apply available_on_iff.
Qed.

(** The result of [check_availability] on a response of the endpoint's
    shape. *)
Lemma check_availability_shaped (campground_id : option string)
    (date : string) (parsed : Date) (w w' : World) (response : Response)
    (body : pyval) (campsites : list (string * pyval)) :
  strptime date = Some parsed ->
  session_get (base_url ++ "/api/camps/availability/campground/"
                 ++ str_of_option campground_id ++ "/month")
              [("start_date", strftime_month parsed)] w = (response, w') ->
  status_code response = 200 ->
  json response = Some body ->
  body_shaped body = true ->
  campsites_of body = Some campsites ->
  result_of (check_availability campground_id date w) =
  Returned (sites_available_on (remove_dashes date) campsites).
Proof.
  intros Hdate Hget Hstatus Hjson Hshape Hsites.
  rewrite (check_availability_run _ _ _ _ Hdate). rewrite Hget. cbn [fst snd].
  rewrite Hstatus, Hjson, Hshape, Hsites. reflexivity.
Qed.


(** The surfaced form of an available record is in the result. *)
Lemma available_record_surfaces (campground_id : option string)
    (date : string) (parsed : Date) (w w' : World) (response : Response)
    (body : pyval) (campsites : list (string * pyval))
    (site_id : string) (site_data : pyval) :
  strptime date = Some parsed ->
  session_get (base_url ++ "/api/camps/availability/campground/"
                 ++ str_of_option campground_id ++ "/month")
              [("start_date", strftime_month parsed)] w = (response, w') ->
  status_code response = 200 ->
  json response = Some body ->
  body_shaped body = true ->
  campsites_of body = Some campsites ->
  In (site_id, site_data) campsites ->
  day_status (remove_dashes date) site_data = Some (PyStr "Available") ->
  exists sites,
    result_of (check_availability campground_id date w) = Returned sites /\
    In (surfaced (site_id, site_data)) sites.
Proof.
  intros Hdate Hget Hstatus Hjson Hshape Hsites Hin Hav.
  eexists. split.
  - eapply check_availability_shaped; eassumption.
  - apply in_sites_available_on. exists site_id, site_data. auto.
Qed.

(** C4. A raw site record that is available on the target day and has no
    [site] key surfaces in the result of [check_availability] with the
    name "Site " followed by its id (so "Site 42" for the id "42"); one
    that has no [type] key surfaces with the type "Unknown". *)
Theorem check_availability_default_fields (campground_id : option string)
    (date : string) (parsed : Date) (w w' : World) (response : Response)
    (body : pyval) (campsites : list (string * pyval))
    (id : string) (fields : list (string * pyval)) :
  strptime date = Some parsed ->
  session_get (base_url ++ "/api/camps/availability/campground/"
                 ++ str_of_option campground_id ++ "/month")
              [("start_date", strftime_month parsed)] w = (response, w') ->
  status_code response = 200 ->
  json response = Some body ->
  body_shaped body = true ->
  campsites_of body = Some campsites ->
  In (id, PyDict fields) campsites ->
  day_status (remove_dashes date) (PyDict fields) = Some (PyStr "Available") ->
  exists sites s,
    result_of (check_availability campground_id date w) = Returned sites /\
    In s sites /\
    site_id s = id /\
    (dict_get "site" fields = None -> site_name s = PyStr ("Site " ++ id)) /\
    (dict_get "site" fields = None -> id = "42" ->
     site_name s = PyStr "Site 42") /\
    (dict_get "type" fields = None -> site_type s = PyStr "Unknown").
Proof.
  intros Hdate Hget Hstatus Hjson Hshape Hsites Hin Hav.
  destruct (available_record_surfaces _ _ _ _ _ _ _ _ _ _
              Hdate Hget Hstatus Hjson Hshape Hsites Hin Hav)
    as [sites [Hres Hs]].
  exists sites, (surfaced (id, PyDict fields)).
  repeat split; try assumption.
  - cbn. intros ->. reflexivity.
  - cbn. intros -> ->. reflexivity.
  - cbn. intros ->. reflexivity.
Qed.

(** C10. The fallbacks apply only to an absent key.  A raw site record that
    is available on the target day and has a [site] key surfaces with the
    value of that key as its name, whatever the value (an empty string and
    [None] included), and likewise for [type]. *)
Theorem check_availability_present_fields (campground_id : option string)
    (date : string) (parsed : Date) (w w' : World) (response : Response)
    (body : pyval) (campsites : list (string * pyval))
    (id : string) (fields : list (string * pyval)) :
  strptime date = Some parsed ->
  session_get (base_url ++ "/api/camps/availability/campground/"
                 ++ str_of_option campground_id ++ "/month")
              [("start_date", strftime_month parsed)] w = (response, w') ->
  status_code response = 200 ->
  json response = Some body ->
  body_shaped body = true ->
  campsites_of body = Some campsites ->
  In (id, PyDict fields) campsites ->
  day_status (remove_dashes date) (PyDict fields) = Some (PyStr "Available") ->
  exists sites s,
    result_of (check_availability campground_id date w) = Returned sites /\
    In s sites /\
    site_id s = id /\
    (forall v, dict_get "site" fields = Some v -> site_name s = v) /\
    (forall v, dict_get "type" fields = Some v -> site_type s = v).
Proof.
  intros Hdate Hget Hstatus Hjson Hshape Hsites Hin Hav.
  destruct (available_record_surfaces _ _ _ _ _ _ _ _ _ _
              Hdate Hget Hstatus Hjson Hshape Hsites Hin Hav)
    as [sites [Hres Hs]].
  exists sites, (surfaced (id, PyDict fields)).
  repeat split; try assumption.
  - cbn. intros v ->. reflexivity.
  - cbn. intros v ->. reflexivity.
Qed.

End AvailabilityClaims.


Lemma check_availability_default_fields_witness :
  In ("42", Scripted.raw_site [] [("20240715", "Available")])
     Examples.mixed_sites /\
  exists sites s,
    result_of (check_availability (Some "232447") Examples.july_15
                 (Scripted.world [Examples.july_mixed])) = Returned sites /\
    In s sites /\
    site_id s = "42" /\
    site_name s = PyStr "Site 42" /\
    site_type s = PyStr "Unknown".
Proof.
  assert (Hin : In ("42", Scripted.raw_site [] [("20240715", "Available")])
                   Examples.mixed_sites).
  { cbn. tauto. }
  split; [exact Hin |].
  destruct (check_availability_default_fields (RT := Scripted.runtime)
              (Some "232447") Examples.july_15
              {| year := 2024; month := 7; day := 15 |}
              (Scripted.world [Examples.july_mixed]) (Scripted.world [])
              Examples.july_mixed
              (Scripted.availability_body Examples.mixed_sites)
              Examples.mixed_sites "42" _
              eq_refl eq_refl eq_refl eq_refl eq_refl eq_refl Hin eq_refl)
    as (sites & s & Hres & Hs & Hid & _ & Hname & Htype).
  exists sites, s. repeat split; auto.
Defined.

Lemma check_availability_present_fields_witness :
  In ("E5", Scripted.raw_site [("site", PyStr ""); ("type", PyNone)]
              [("20240715", "Available")])
     Examples.mixed_sites /\
  exists sites s,
    result_of (check_availability (Some "232447") Examples.july_15
                 (Scripted.world [Examples.july_mixed])) = Returned sites /\
    In s sites /\
    site_id s = "E5" /\
    site_name s = PyStr "" /\
    site_type s = PyNone.
Proof.
  assert (Hin : In ("E5", Scripted.raw_site
                            [("site", PyStr ""); ("type", PyNone)]
                            [("20240715", "Available")])
                   Examples.mixed_sites).
  { cbn. tauto. }
  split; [exact Hin |].
  destruct (check_availability_present_fields (RT := Scripted.runtime)
              (Some "232447") Examples.july_15
              {| year := 2024; month := 7; day := 15 |}
              (Scripted.world [Examples.july_mixed]) (Scripted.world [])
              Examples.july_mixed
              (Scripted.availability_body Examples.mixed_sites)
              Examples.mixed_sites "E5" _
              eq_refl eq_refl eq_refl eq_refl eq_refl eq_refl Hin eq_refl)
    as (sites & s & Hres & Hs & Hid & Hname & Htype).
  exists sites, s. repeat split; auto.
Defined.

(** ** [search_campgrounds] *)

Section SearchFacts.

Context {World : Type} `{RT : Runtime World}.

(** The loop keeps the results that have a name, in order, whether or not
    they have an id. *)
Lemma parse_results_spec (search_results : list Tag) :
  forall campgrounds,
    parse_results search_results campgrounds =
    Ok (campgrounds ++ flat_map campground_of_item search_results)%list.
Proof.
  induction search_results as [| result rest IH]; intros acc.
  - cbn. rewrite app_nil_r. reflexivity.
  - cbn [parse_results flat_map]. unfold parse_result, campground_of_item.
    destruct (entity_name result) as [text |].
    + rewrite IH. rewrite <- app_assoc. reflexivity.
    + cbn. apply IH.
Qed.

Lemma search_campgrounds_run (park_name : string) (w : World) :
  let url := base_url ++ "/search" in
  let params := [("q", park_name ++ " campground");
                 ("entity_type", "campground")] in
  let response := fst (session_get url params w) in
  search_campgrounds park_name w =
  (Returned (resolved response), snd (session_get url params w),
   [EvGet url params response]).
Proof.
  cbn zeta. unfold search_campgrounds, resolved. rewrite run_bind. unfold get.
  destruct (session_get _ _ w) as [response w']. cbn [fst snd].
  destruct (negb (status_code response =? 200)); [reflexivity |].
  rewrite parse_results_spec. reflexivity.
Qed.

(** [search_campgrounds] returns, whatever the response. *)
Lemma search_campgrounds_returns (park_name : string) (w : World) :
  exists campgrounds,
    result_of (search_campgrounds park_name w) = Returned campgrounds.
Proof.
  rewrite search_campgrounds_run. eexists. reflexivity.
Qed.

(** A status other than 200 gives the empty list. *)
Lemma search_campgrounds_failed_status (park_name : string) (w : World) :
  status_code (fst (session_get (base_url ++ "/search")
                      [("q", park_name ++ " campground");
                       ("entity_type", "campground")] w)) <> 200 ->
  result_of (search_campgrounds park_name w) = Returned [].
Proof.
  intros Hstatus. rewrite search_campgrounds_run. unfold result_of, resolved.
  cbn [fst]. destruct (Z.eqb_spec (status_code
    (fst (session_get (base_url ++ "/search")
            [("q", park_name ++ " campground");
             ("entity_type", "campground")] w))) 200);
    [contradiction | reflexivity].
Qed.


End SearchFacts.

(** C6. On a search page whose only result has a name and no
    [data-entity-id] attribute, [search_campgrounds] does not skip the
    result: it returns one campground whose id is [None]. *)
Theorem search_campgrounds_keeps_result_without_id :
  result_of (search_campgrounds "Yosemite"
               (Scripted.world [Examples.result_without_id])) =
  Returned [{| campground_id := None; campground_name := "Upper Pines" |}].
Proof. reflexivity. Qed.

(** A result without a name is skipped, and the results after it are
    kept. *)
Example search_campgrounds_skips_result_without_name :
  result_of (search_campgrounds "Yosemite"
               (Scripted.world [Examples.result_without_name])) =
  Returned [Examples.lower_pines].
Proof. reflexivity. Qed.

(** ** [send_notification] *)

Section NotificationFacts.

Context {World : Type} `{RT : Runtime World}.

(** With sites to report, the message goes to the transport once and the
    result is whether it was delivered. *)
Lemma send_notification_run (email campground_name : string)
    (first : Site) (others : list Site) (date : string) (w : World) :
  exists msg,
    send_notification email campground_name (first :: others) date w =
    (Returned (fst (smtp_send msg w)), snd (smtp_send msg w),
     [EvSmtp msg (fst (smtp_send msg w))]).
Proof.
  unfold send_notification.
  match goal with |- context [smtp ?m] => exists m end.
  rewrite run_bind. unfold smtp.
  destruct (smtp_send _ w) as [delivered w']. cbn [fst snd].
  destruct delivered; reflexivity.
Qed.

(** C7. [send_notification] with an empty list of sites returns [False],
    leaves the world as it is and causes no event, so no call of the mail
    transport; and a run of [send_notification] that hands a message to
    the transport was given a list of sites that is not empty. *)
Theorem send_notification_empty (email campground_name date : string)
    (w : World) :
  send_notification email campground_name [] date w = (Returned false, w, []) /\
  forall available_sites,
    existsb is_mail
      (trace_of (send_notification email campground_name
                   available_sites date w)) = true ->
    available_sites <> [].
Proof.
  split; [reflexivity |].
  intros [| first others] Hmail; [discriminate | discriminate].
Qed.

End NotificationFacts.

Lemma send_notification_empty_witness :
  existsb is_mail
    (trace_of (send_notification "camper@example.org" "Upper Pines"
                 [Examples.site_a1] Examples.july_15 (Scripted.world []))) =
    true /\
  [Examples.site_a1] <> [].
Proof.
  split; [reflexivity |].
  exact (proj2 (send_notification_empty (RT := Scripted.runtime)
                  "camper@example.org" "Upper Pines" Examples.july_15
                  (Scripted.world []))
               [Examples.site_a1] eq_refl).
Defined.

(** ** [poll_availability]: no attempts *)

Section NoAttempt.

Context {World : Type} `{RT : Runtime World}.

(** C8. With [max_attempts = 0], [poll_availability] returns [None] at
    once: the world is unchanged and the trace is empty, so no request
    went to the search or availability endpoint. *)
Theorem poll_availability_zero_attempts (park_name date : string)
    (interval : Z) (email : option string) (w : World) :
  poll_availability park_name date interval email 0 w = (Returned None, w, []).
Proof. reflexivity. Qed.

End NoAttempt.

(** ** The polling loop: how it runs *)

Section PollFacts.

Context {World : Type} `{RT : Runtime World}.

(** [check_availability] on a date that does not parse raises before any
    request. *)
Lemma check_availability_bad_date (campground_id : option string)
    (date : string) (w : World) :
  strptime date = None ->
  check_availability campground_id date w = (Raised ValueError, w, []).
Proof.
  intros Hdate. unfold check_availability. rewrite Hdate. reflexivity.
Qed.

(** [check_availability] returns or raises; its events are requests. *)
Lemma check_availability_trace (campground_id : option string)
    (date : string) (w : World) :
  forallb is_query (trace_of (check_availability campground_id date w)) = true
  /\ result_of (check_availability campground_id date w) <> OutOfFuel.
Proof.
  destruct (strptime date) as [parsed |] eqn:Hdate.
  - rewrite (check_availability_run _ _ _ _ Hdate). cbn. split; [reflexivity |].
    destruct (negb _); [discriminate |].
    destruct (json _) as [body |]; [| discriminate].
    destruct (body_shaped body); discriminate.
  - rewrite (check_availability_bad_date _ _ _ Hdate). cbn.
    split; [reflexivity | discriminate].
Qed.

(** One pass of the [for] loop. *)
Lemma scan_campgrounds_cons (date : string) (email : option string)
    (c : Campground) (rest : list Campground) (w : World) :
  scan_campgrounds date email (c :: rest) w =
  match check_availability (campground_id c) date w with
  | (Returned [], w1, t1) =>
      match scan_campgrounds date email rest w1 with
      | (o, w2, t2) => (o, w2, (t1 ++ EvChecked c [] :: t2)%list)
      end
  | (Returned (s :: ss), w1, t1) =>
      let found := {| campground := campground_name c;
                      available_sites := s :: ss;
                      date := date |} in
      match truthy email with
      | Some address =>
          match send_notification address (campground_name c)
                  (s :: ss) date w1 with
          | (Returned sent, w2, t2) =>
              (Returned (Some found), w2,
               (t1 ++ EvChecked c (s :: ss) :: t2
                   ++ [EvNotified (campground_name c) (s :: ss) sent])%list)
          | (Raised e, w2, t2) =>
              (Raised e, w2, (t1 ++ EvChecked c (s :: ss) :: t2)%list)
          | (OutOfFuel, w2, t2) =>
              (OutOfFuel, w2, (t1 ++ EvChecked c (s :: ss) :: t2)%list)
          end
      | None => (Returned (Some found), w1, (t1 ++ [EvChecked c (s :: ss)])%list)
      end
  | (Raised e, w1, t1) => (Raised e, w1, t1)
  | (OutOfFuel, w1, t1) => (OutOfFuel, w1, t1)
  end.
Proof.
  cbn [scan_campgrounds]. rewrite run_bind, run_observing.
  destruct (check_availability (campground_id c) date w)
    as [[[sites | e |] w1] t1]; try reflexivity.
  destruct sites as [| s ss].
  - destruct (scan_campgrounds date email rest w1) as [[o w2] t2].
    rewrite <- app_assoc. reflexivity.
  - rewrite run_bind. cbn zeta.
    destruct (truthy email) as [address |].
    + rewrite run_bind, run_observing.
      destruct (send_notification address (campground_name c) (s :: ss) date w1)
        as [[[sent | e |] w2] t2]; cbn;
        rewrite <- ?app_assoc; cbn; rewrite ?app_nil_r; reflexivity.
    + cbn. rewrite app_nil_r. reflexivity.
Qed.

(** *** Traces *)

Lemma first_hit_app (t1 t2 : list event) :
  first_hit (t1 ++ t2) =
  match first_hit t1 with
  | Some (c, sites, tail) => Some (c, sites, (tail ++ t2)%list)
  | None => first_hit t2
  end.
Proof.
  induction t1 as [| e t1 IH]; [reflexivity |].
  destruct e as [url params response | msg sent | seconds | cs | c sites
                 | c sites sent]; cbn; try exact IH.
  destruct sites; [exact IH | reflexivity].
Qed.

Lemma notifications_app (t1 t2 : list event) :
  notifications (t1 ++ t2) = (notifications t1 + notifications t2)%nat.
Proof.
  unfold notifications. rewrite filter_app. apply length_app.
Qed.

Lemma schedule_app (t1 t2 : list event) :
  schedule (t1 ++ t2) = (schedule t1 ++ schedule t2)%list.
Proof.
  induction t1 as [| e t1 IH]; [reflexivity |].
  destruct e; cbn; rewrite ?IH; reflexivity.
Qed.

(** A trace of requests only has no hit, no notification, no mail, no
    check and no mark of the schedule. *)
Lemma queries_only (t : list event) :
  forallb is_query t = true ->
  first_hit t = None /\ notifications t = O /\ existsb is_mail t = false /\
  existsb is_check t = false /\ schedule t = [] /\
  forall position, fold_left track t position = position.
Proof.
  induction t as [| e t IH]; [cbn; auto 6 |].
  destruct e; cbn; try discriminate.
  intros H. destruct (IH H) as (H1 & H2 & H3 & H4 & H5 & H6). auto 7.
Qed.

(** *** The [for] loop *)

(** The run of the [for] loop, read off its trace.  If
    [check_availability] handed back a list that is not empty, the loop
    returned the poll result made of it, and after that event came at most
    one message to the transport and the record of that notification;
    otherwise the loop ended without a result and notified nobody. *)
Lemma scan_campgrounds_shape (date : string) (email : option string)
    (campgrounds : list Campground) :
  forall w,
    match first_hit (trace_of (scan_campgrounds date email campgrounds w)) with
    | Some (c, sites, tail) =>
        result_of (scan_campgrounds date email campgrounds w) =
          Returned (Some {| campground := campground_name c;
                            available_sites := sites;
                            date := date |}) /\
        (tail = [] \/
         exists msg sent,
           tail = [EvSmtp msg sent; EvNotified (campground_name c) sites sent])
        /\ notifications (trace_of (scan_campgrounds date email campgrounds w))
           = notifications tail
    | None =>
        (result_of (scan_campgrounds date email campgrounds w) = Returned None
         \/ exists e,
             result_of (scan_campgrounds date email campgrounds w) = Raised e)
        /\ notifications (trace_of (scan_campgrounds date email campgrounds w))
           = O
        /\ existsb is_mail
             (trace_of (scan_campgrounds date email campgrounds w)) = false
    end.
Proof.
  induction campgrounds as [| c rest IH]; intros w.
  - cbn. auto.
  - rewrite scan_campgrounds_cons.
    destruct (check_availability_trace (campground_id c) date w) as [Hq Hfuel].
    destruct (check_availability (campground_id c) date w)
      as [[[sites | e |] w1] t1]; cbn in Hq, Hfuel.
    + destruct (queries_only t1 Hq) as (Hhit & Hn & Hm & _).
      destruct sites as [| s ss].
      * specialize (IH w1).
        destruct (scan_campgrounds date email rest w1) as [[o w2] t2].
        unfold trace_of, result_of in *. cbn [fst snd] in *.
        rewrite first_hit_app, Hhit. cbn [first_hit].
        rewrite notifications_app, Hn, existsb_app, Hm. cbn.
        exact IH.
      * cbn zeta. destruct (truthy email) as [address |].
        -- destruct (send_notification_run address (campground_name c) s ss
                       date w1) as [msg Hsend].
           rewrite Hsend. unfold trace_of, result_of. cbn [fst snd].
           rewrite first_hit_app, Hhit. cbn [first_hit].
           rewrite notifications_app, Hn. cbn.
           split; [reflexivity |]. split; [| reflexivity].
           right. eexists _, _. reflexivity.
        -- unfold trace_of, result_of. cbn [fst snd].
           rewrite first_hit_app, Hhit. cbn [first_hit].
           rewrite notifications_app, Hn. cbn. auto.
    + destruct (queries_only t1 Hq) as (Hhit & Hn & Hm & _).
      unfold trace_of, result_of. cbn [fst snd]. rewrite Hhit.
      split; [right; eexists; reflexivity | auto].
    + contradiction.
Qed.

(** *** The [while] loop *)

(** One pass of the body of the [while] loop. *)
Lemma poll_attempt_run (park_name date : string) (interval : Z)
    (email : option string) (max_attempts attempts : Z) (w : World) :
  let url := base_url ++ "/search" in
  let params := [("q", park_name ++ " campground");
                 ("entity_type", "campground")] in
  let response := fst (session_get url params w) in
  let campgrounds := resolved response in
  let head := [EvGet url params response; EvResolved campgrounds] in
  poll_attempt park_name date interval email max_attempts attempts w =
  match scan_campgrounds date email campgrounds
          (snd (session_get url params w)) with
  | (Returned (Some result), w2, t) => (Returned (inl result), w2, head ++ t)
  | (Returned None, w2, t) =>
      if attempts + 1 <? max_attempts then
        if interval <? 0 then (Raised ValueError, w2, head ++ t)
        else (Returned (inr (attempts + 1)), sleep_world interval w2,
              head ++ t ++ [EvSleep interval])
      else (Returned (inr (attempts + 1)), w2, head ++ t)
  | (Raised e, w2, t) => (Raised e, w2, head ++ t)
  | (OutOfFuel, w2, t) => (OutOfFuel, w2, head ++ t)
  end%list.
Proof.
  cbn zeta. unfold poll_attempt.
  rewrite run_bind, run_observing, search_campgrounds_run. cbn [app].
  rewrite run_bind.
  destruct (scan_campgrounds date email _ _) as [[[[result |] | e |] w2] t];
    try reflexivity.
  - cbn. rewrite app_nil_r. reflexivity.
  - rewrite run_bind. unfold time_sleep.
    destruct (attempts + 1 <? max_attempts).
    + destruct (interval <? 0); cbn; rewrite ?app_nil_r; reflexivity.
    + cbn. rewrite app_nil_r. reflexivity.
Qed.

(** One unrolling of the [while] loop. *)
Lemma poll_loop_step (fuel : nat) (park_name date : string) (interval : Z)
    (email : option string) (max_attempts attempts : Z) (w : World) :
  poll_loop (S fuel) park_name date interval email max_attempts attempts w =
  if attempts <? max_attempts then
    match poll_attempt park_name date interval email max_attempts
            attempts w with
    | (Returned (inl result), w1, t1) => (Returned (Some result), w1, t1)
    | (Returned (inr attempts'), w1, t1) =>
        match poll_loop fuel park_name date interval email max_attempts
                attempts' w1 with
        | (o, w2, t2) => (o, w2, (t1 ++ t2)%list)
        end
    | (Raised e, w1, t1) => (Raised e, w1, t1)
    | (OutOfFuel, w1, t1) => (OutOfFuel, w1, t1)
    end
  else (Returned None, w, []).
Proof.
  cbn [poll_loop]. destruct (attempts <? max_attempts); [| reflexivity].
  rewrite run_bind.
  destruct (poll_attempt _ _ _ _ _ _ w) as [[[[result | attempts'] | e |] w1] t1];
    try reflexivity.
  cbn. rewrite app_nil_r. reflexivity.
Qed.


(** The run of the whole loop, read off its trace, as for the [for]
    loop. *)
Lemma poll_loop_shape (park_name date : string) (interval : Z)
    (email : option string) (max_attempts : Z) (fuel : nat) :
  forall attempts w,
    match first_hit (trace_of (poll_loop fuel park_name date interval email
                                 max_attempts attempts w)) with
    | Some (c, sites, tail) =>
        result_of (poll_loop fuel park_name date interval email
                     max_attempts attempts w) =
          Returned (Some {| campground := campground_name c;
                            available_sites := sites;
                            date := date |}) /\
        (tail = [] \/
         exists msg sent,
           tail = [EvSmtp msg sent; EvNotified (campground_name c) sites sent])
        /\ notifications (trace_of (poll_loop fuel park_name date interval
                                      email max_attempts attempts w))
           = notifications tail
    | None =>
        (forall result,
           result_of (poll_loop fuel park_name date interval email
                        max_attempts attempts w) <> Returned (Some result))
        /\ notifications (trace_of (poll_loop fuel park_name date interval
                                      email max_attempts attempts w)) = O
        /\ existsb is_mail
             (trace_of (poll_loop fuel park_name date interval email
                          max_attempts attempts w)) = false
    end.
Proof.
  induction fuel as [| fuel IH]; intros attempts w.
  - cbn. repeat split; discriminate.
  - rewrite poll_loop_step.
    destruct (attempts <? max_attempts);
      [| cbn; repeat split; discriminate].
    rewrite poll_attempt_run. cbn zeta.
    match goal with
    | |- context [scan_campgrounds date email ?cs ?w1] =>
        pose proof (scan_campgrounds_shape date email cs w1) as Hscan;
        destruct (scan_campgrounds date email cs w1) as [[o w2] t]
    end.
    unfold trace_of, result_of in Hscan. cbn [fst snd] in Hscan.
    destruct o as [[result |] | e |].
    + unfold trace_of, result_of. cbn [fst snd app first_hit].
      unfold notifications in *. cbn [filter is_notification existsb is_mail].
      destruct (first_hit t) as [[[c sites] tail] |]; [exact Hscan |].
      destruct Hscan as [[H | [e H]] _]; discriminate.
    + destruct (first_hit t) as [[[c sites] tail] |] eqn:Hhit;
        [destruct Hscan as [H _]; discriminate |].
      destruct Hscan as (_ & Hn & Hm).
      destruct (attempts + 1 <? max_attempts); [destruct (interval <? 0) |].
      * unfold trace_of, result_of. cbn [fst snd app first_hit].
        rewrite Hhit. unfold notifications in *.
        cbn [filter is_notification existsb is_mail orb].
        repeat split; try assumption; discriminate.
      * specialize (IH (attempts + 1) (sleep_world interval w2)).
        destruct (poll_loop fuel _ _ _ _ _ _ _) as [[o3 w3] t3].
        unfold trace_of, result_of in *. cbn [fst snd app first_hit] in *.
        rewrite <- app_assoc, first_hit_app, Hhit. cbn [app first_hit].
        change (EvGet ?u ?p ?r :: EvResolved ?cs :: ?l)
          with ([EvGet u p r; EvResolved cs] ++ l)%list.
        rewrite !notifications_app, !existsb_app, Hn, Hm. cbn.
        exact IH.
      * specialize (IH (attempts + 1) w2).
        destruct (poll_loop fuel _ _ _ _ _ _ _) as [[o3 w3] t3].
        unfold trace_of, result_of in *. cbn [fst snd app first_hit] in *.
        rewrite first_hit_app, Hhit.
        change (EvGet ?u ?p ?r :: EvResolved ?cs :: ?l)
          with ([EvGet u p r; EvResolved cs] ++ l)%list.
        rewrite !notifications_app, !existsb_app, Hn, Hm. cbn.
        exact IH.
    + unfold trace_of, result_of. cbn [fst snd app first_hit].
      unfold notifications in *. cbn [filter is_notification existsb is_mail orb].
      destruct (first_hit t) as [[[c sites] tail] |];
        [destruct Hscan as [H _]; discriminate |].
      destruct Hscan as (_ & Hn & Hm). repeat split; try assumption.
      discriminate.
    + unfold trace_of, result_of. cbn [fst snd app first_hit].
      unfold notifications in *. cbn [filter is_notification existsb is_mail orb].
      destruct (first_hit t) as [[[c sites] tail] |];
        [destruct Hscan as [H _]; discriminate |].
      destruct Hscan as (_ & Hn & Hm). repeat split; try assumption.
      discriminate.
Qed.

(** *** Resolver order *)

Lemma in_resolver_order_app (t1 t2 : list event) :
  forall position,
    in_resolver_order position (t1 ++ t2) <->
    in_resolver_order position t1 /\
    in_resolver_order (fold_left track t1 position) t2.
Proof.
  induction t1 as [| e t1 IH]; intros position.
  - cbn. tauto.
  - cbn [app in_resolver_order fold_left]. rewrite IH. tauto.
Qed.

Lemma in_resolver_order_queries (t : list event) :
  forallb is_query t = true ->
  forall position, in_resolver_order position t.
Proof.
  induction t as [| e t IH]; intros H position; [exact I |].
  destruct e; cbn in H; try discriminate.
  cbn. split; [exact I | apply IH; exact H].
Qed.

(** The [for] loop checks the campgrounds it is given from first to
    last. *)
Lemma scan_campgrounds_in_order (date : string) (email : option string)
    (rest : list Campground) :
  forall (checked : list Campground) (w : World),
    in_resolver_order (Some ((checked ++ rest)%list, List.length checked))
      (trace_of (scan_campgrounds date email rest w)).
Proof.
  induction rest as [| c rest IH]; intros checked w; [exact I |].
  rewrite scan_campgrounds_cons.
  destruct (check_availability_trace (campground_id c) date w) as [Hq _].
  assert (Hnth : nth_error (checked ++ c :: rest) (List.length checked)
                 = Some c).
  { rewrite nth_error_app2 by apply Nat.le_refl.
    rewrite Nat.sub_diag. reflexivity. }
  assert (Hnext : forall tr,
             in_resolver_order
               (Some ((checked ++ c :: rest)%list, S (List.length checked)))
               (trace_of (scan_campgrounds date email rest tr))).
  { intros tr. specialize (IH (checked ++ [c])%list tr).
    rewrite <- app_assoc, length_app, Nat.add_1_r in IH. exact IH. }
  destruct (check_availability (campground_id c) date w)
    as [[[sites | e |] w1] t1]; cbn in Hq;
    destruct (queries_only t1 Hq) as (_ & _ & _ & _ & _ & Hpos).
  - destruct sites as [| s ss].
    + specialize (Hnext w1).
      destruct (scan_campgrounds date email rest w1) as [[o w2] t2].
      unfold trace_of in *. cbn [snd] in *.
      apply in_resolver_order_app. split.
      * now apply in_resolver_order_queries.
      * rewrite Hpos. cbn [in_resolver_order track]. auto.
    + cbn zeta. destruct (truthy email) as [address |].
      * destruct (send_notification_run address (campground_name c) s ss
                    date w1) as [msg Hsend].
        rewrite Hsend. unfold trace_of. cbn [snd].
        apply in_resolver_order_app. split.
        -- now apply in_resolver_order_queries.
        -- rewrite Hpos. cbn. auto.
      * unfold trace_of. cbn [snd].
        apply in_resolver_order_app. split.
        -- now apply in_resolver_order_queries.
        -- rewrite Hpos. cbn. auto.
  - now apply in_resolver_order_queries.
  - now apply in_resolver_order_queries.
Qed.

(** Every check of a run of the loop is made for the campground that comes
    next in the list resolved in the same attempt. *)
Lemma poll_loop_in_order (park_name date : string) (interval : Z)
    (email : option string) (max_attempts : Z) (fuel : nat) :
  forall attempts w position,
    in_resolver_order position
      (trace_of (poll_loop fuel park_name date interval email
                   max_attempts attempts w)).
Proof.
  induction fuel as [| fuel IH]; intros attempts w position; [exact I |].
  rewrite poll_loop_step.
  destruct (attempts <? max_attempts); [| exact I].
  rewrite poll_attempt_run. cbn zeta.
  match goal with
  | |- context [scan_campgrounds date email ?cs ?w1] =>
      pose proof (scan_campgrounds_in_order date email cs [] w1) as Hscan;
      destruct (scan_campgrounds date email cs w1) as [[o w2] t]
  end.
  unfold trace_of in Hscan. cbn [snd app List.length] in Hscan.
  destruct o as [[result |] | e |];
    try (unfold trace_of; cbn [snd app in_resolver_order track];
         auto; fail).
  destruct (attempts + 1 <? max_attempts); [destruct (interval <? 0) |].
  - unfold trace_of. cbn [snd app in_resolver_order track]. auto.
  - specialize (IH (attempts + 1) (sleep_world interval w2)).
    destruct (poll_loop fuel _ _ _ _ _ _ _) as [[o3 w3] t3].
    unfold trace_of in *. cbn [snd app in_resolver_order track] in *.
    split; [exact I |]. split; [exact I |].
    rewrite <- app_assoc. apply in_resolver_order_app. split; [exact Hscan |].
    cbn [app in_resolver_order]. split; [exact I |]. apply IH.
  - specialize (IH (attempts + 1) w2).
    destruct (poll_loop fuel _ _ _ _ _ _ _) as [[o3 w3] t3].
    unfold trace_of in *. cbn [snd app in_resolver_order track] in *.
    split; [exact I |]. split; [exact I |].
    apply in_resolver_order_app. split; [exact Hscan | apply IH].
Qed.

(** Where a check stands in a trace that is in resolver order. *)
Lemma in_resolver_order_at (pre post : list event) (c : Campground)
    (sites : list Site) :
  in_resolver_order None (pre ++ EvChecked c sites :: post) ->
  exists campgrounds k,
    position_after pre = Some (campgrounds, k) /\
    nth_error campgrounds k = Some c.
Proof.
  intros H. apply in_resolver_order_app in H. destruct H as [_ H].
  cbn [in_resolver_order] in H. destruct H as [H _].
  unfold position_after.
  destruct (fold_left track pre None) as [[campgrounds k] |]; [| contradiction].
  exists campgrounds, k. auto.
Qed.

(** *** The first hit is the only one *)

Lemma first_hit_found (pre post : list event) (c : Campground)
    (s : Site) (ss : list Site) :
  forall c0 sites0 tail,
    first_hit (pre ++ EvChecked c (s :: ss) :: post) = Some (c0, sites0, tail) ->
    existsb is_check tail = false ->
    c0 = c /\ sites0 = s :: ss /\ tail = post.
Proof.
  induction pre as [| e pre IH]; intros c0 sites0 tail Hhit Htail.
  - cbn in Hhit. inversion Hhit. auto.
  - destruct e as [url params response | msg sent | seconds | cs | c1 sites1
                   | c1 sites1 sent]; cbn in Hhit; try (now apply IH).
    destruct sites1 as [| s1 ss1]; [now apply IH |].
    inversion Hhit; subst. rewrite existsb_app in Htail. cbn in Htail.
    rewrite orb_true_r in Htail. discriminate.
Qed.

Lemma first_hit_exists (pre post : list event) (c : Campground)
    (s : Site) (ss : list Site) :
  first_hit (pre ++ EvChecked c (s :: ss) :: post) <> None.
Proof.
  induction pre as [| e pre IH]; [discriminate |].
  destruct e as [url params response | msg sent | seconds | cs | c1 sites1
                 | c1 sites1 sent]; cbn; try exact IH.
  destruct sites1; [exact IH | discriminate].
Qed.

End PollFacts.

(** ** [poll_availability]: the first campground with sites wins *)

Section FirstHit.

Context {World : Type} `{RT : Runtime World}.


End FirstHit.


(** ** [poll_availability]: a park without campgrounds *)

Section NoCampground.

Context {World : Type} `{RT : Runtime World}.





End NoCampground.


(** ** [poll_availability]: a date that does not parse *)

Section MalformedDate.

Context {World : Type} `{RT : Runtime World}.

Lemma scan_campgrounds_bad_date (date : string) (email : option string)
    (c : Campground) (rest : list Campground) (w : World) :
  strptime date = None ->
  scan_campgrounds date email (c :: rest) w = (Raised ValueError, w, []).
Proof.
  intros Hdate. rewrite scan_campgrounds_cons.
  rewrite (check_availability_bad_date _ _ _ Hdate). reflexivity.
Qed.

Lemma idle_no_availability_query (t : list event) :
  forallb is_idle t = true -> existsb is_availability_query t = false.
Proof.
  induction t as [| e t IH]; [reflexivity |].
  cbn [forallb existsb]. intros H. apply andb_true_iff in H.
  destruct H as [He Ht]. rewrite (IH Ht), orb_false_r.
  unfold is_availability_query.
  destruct e as [url params response | msg sent | seconds | cs | c sites
                 | c sites sent]; try reflexivity.
  cbn in He. cbn. rewrite He. reflexivity.
Qed.

Lemma idle_resolved_empty (t : list event) (campgrounds : list Campground) :
  forallb is_idle t = true -> In (EvResolved campgrounds) t ->
  campgrounds = [].
Proof.
  intros H Hin. rewrite forallb_forall in H. specialize (H _ Hin).
  destruct campgrounds; [reflexivity | discriminate].
Qed.

(** In a trace whose events are idle up to the last one, an event that is
    not idle is the last one. *)
Lemma idle_then_last (pre : list event) (x : event) :
  forallb is_idle pre = true ->
  forall pre' y post,
    (pre ++ [x])%list = (pre' ++ y :: post)%list ->
    is_idle y = false ->
    post = [].
Proof.
  induction pre as [| e pre IH]; intros Hidle pre' y post Heq Hy.
  - destruct pre' as [| e' pre']; cbn in Heq.
    + now inversion Heq.
    + inversion Heq as [[He Hrest]]. destruct pre'; discriminate.
  - cbn in Hidle. apply andb_true_iff in Hidle. destruct Hidle as [He Hpre].
    destruct pre' as [| e' pre']; cbn in Heq.
    + inversion Heq; subst. rewrite He in Hy. discriminate.
    + inversion Heq; subst. eapply IH; eassumption.
Qed.

(** The run of the loop on a date that does not parse: attempts in which
    the resolver yields nothing, until one in which it yields a campground,
    where [ValueError] is raised at once. *)
Lemma poll_loop_bad_date (park_name date : string) (interval : Z)
    (email : option string) (max_attempts : Z) (fuel : nat) :
  strptime date = None ->
  forall attempts w,
    (forallb is_idle
       (trace_of (poll_loop fuel park_name date interval email
                    max_attempts attempts w)) = true /\
     forall result,
       result_of (poll_loop fuel park_name date interval email
                    max_attempts attempts w) <> Returned (Some result))
    \/
    (result_of (poll_loop fuel park_name date interval email
                  max_attempts attempts w) = Raised ValueError /\
     exists pre campgrounds,
       trace_of (poll_loop fuel park_name date interval email
                   max_attempts attempts w) =
         (pre ++ [EvResolved campgrounds])%list /\
       campgrounds <> [] /\
       forallb is_idle pre = true).
Proof.
  intros Hdate. induction fuel as [| fuel IH]; intros attempts w.
  - left. cbn. split; [reflexivity | discriminate].
  - rewrite poll_loop_step.
    destruct (attempts <? max_attempts);
      [| left; cbn; split; [reflexivity | discriminate]].
    rewrite poll_attempt_run. cbn zeta.
    destruct (resolved _) as [| c rest] eqn:Hresolved.
    + cbn [scan_campgrounds]. rewrite run_ret.
      destruct (attempts + 1 <? max_attempts); [destruct (interval <? 0) |].
      * left. cbn. split; [reflexivity | discriminate].
      * match goal with
        | |- context [poll_loop fuel _ _ _ _ _ ?a ?w1] =>
            specialize (IH a w1);
            destruct (poll_loop fuel park_name date interval email
                        max_attempts a w1) as [[o3 w3] t3]
        end.
        unfold trace_of, result_of in *. cbn [fst snd] in *.
        destruct IH as [[Hidle Hres] | (Hres & pre & cs & Ht & Hcs & Hidle)].
        -- left. split; [| exact Hres]. cbn. exact Hidle.
        -- right. split; [exact Hres |].
           eexists (_ :: _ :: _ :: pre), cs. rewrite Ht.
           split; [reflexivity |]. split; [exact Hcs |]. cbn. exact Hidle.
      * match goal with
        | |- context [poll_loop fuel _ _ _ _ _ ?a ?w1] =>
            specialize (IH a w1);
            destruct (poll_loop fuel park_name date interval email
                        max_attempts a w1) as [[o3 w3] t3]
        end.
        unfold trace_of, result_of in *. cbn [fst snd] in *.
        destruct IH as [[Hidle Hres] | (Hres & pre & cs & Ht & Hcs & Hidle)].
        -- left. split; [| exact Hres]. cbn. exact Hidle.
        -- right. split; [exact Hres |].
           eexists (_ :: _ :: pre), cs. rewrite Ht.
           split; [reflexivity |]. split; [exact Hcs |]. cbn. exact Hidle.
    + rewrite (scan_campgrounds_bad_date _ _ _ _ _ Hdate).
      right. split; [reflexivity |].
      eexists [_], (c :: rest). split; [reflexivity |].
      split; [discriminate | reflexivity].
Qed.

(** C5, as the program has it.  For a date that [strptime] rejects, a run
    of [poll_availability] sends no request to the availability endpoint
    and never returns a poll result.  [ValueError] reaches the caller as
    soon as the resolver yields a list of campgrounds that is not empty,
    which is after the search request of that attempt, and nothing happens
    after it; and the run returns [None] only if the resolver yielded no
    campground at every attempt. *)
Theorem poll_availability_malformed_date (park_name date : string)
    (interval : Z) (email : option string) (max_attempts : Z) (w : World) :
  strptime date = None ->
  (forall result,
     result_of (poll_availability park_name date interval email
                  max_attempts w) <> Returned (Some result)) /\
  existsb is_availability_query
    (trace_of (poll_availability park_name date interval email
                 max_attempts w)) = false /\
  (result_of (poll_availability park_name date interval email
                max_attempts w) = Returned None ->
   forall campgrounds,
     In (EvResolved campgrounds)
        (trace_of (poll_availability park_name date interval email
                     max_attempts w)) ->
     campgrounds = []) /\
  (forall pre campgrounds post,
     trace_of (poll_availability park_name date interval email
                 max_attempts w) =
       (pre ++ EvResolved campgrounds :: post)%list ->
     campgrounds <> [] ->
     result_of (poll_availability park_name date interval email
                  max_attempts w) = Raised ValueError /\
     post = []).
Proof.
  unfold poll_availability. intros Hdate.
  destruct (poll_loop_bad_date park_name date interval email max_attempts
              (S (Z.to_nat max_attempts)) Hdate 0 w)
    as [[Hidle Hres] | (Hres & pre0 & cs0 & Ht & Hcs & Hidle)].
  - split; [exact Hres |].
    split; [now apply idle_no_availability_query |].
    split.
    + intros _ campgrounds Hin. eapply idle_resolved_empty; eassumption.
    + intros pre campgrounds post Ht Hne. exfalso. apply Hne.
      eapply idle_resolved_empty; [exact Hidle |].
      rewrite Ht. apply in_or_app. right. left. reflexivity.
  - split; [rewrite Hres; discriminate |].
    split.
    { rewrite Ht, existsb_app, (idle_no_availability_query _ Hidle).
      reflexivity. }
    split; [rewrite Hres; discriminate |].
    intros pre campgrounds post Ht' Hne. split; [exact Hres |].
    rewrite Ht in Ht'.
    eapply idle_then_last; [exact Hidle | exact Ht' |].
    destruct campgrounds; [contradiction | reflexivity].
Qed.

End MalformedDate.

Lemma poll_availability_malformed_date_witness :
  let run :=
    poll_availability "Yosemite" "15/07/2024" 3600 None 24
      (Scripted.world [Examples.one_campground; Examples.july_a1]) in
  strptime (World := Scripted.World) "15/07/2024" = None /\
  existsb is_availability_query (trace_of run) = false /\
  result_of run = Raised ValueError.
Proof.
  cbv zeta. split; [reflexivity |].
  destruct (poll_availability_malformed_date (RT := Scripted.runtime)
              "Yosemite" "15/07/2024" 3600 None 24
              (Scripted.world [Examples.one_campground; Examples.july_a1])
              eq_refl) as (_ & Hq & _ & Hraise).
  split; [exact Hq |].
  exact (proj1 (Hraise [EvGet "https://www.recreation.gov/search"
                          [("q", "Yosemite campground");
                           ("entity_type", "campground")]
                          Examples.one_campground]
                       [Examples.upper_pines] [] eq_refl
                       ltac:(discriminate))).
Defined.

(** C5 as it is stated fails.  With the date "15/07/2024", which
    [strptime] rejects: on a park for which the resolver yields no
    campground, [poll_availability] sends its search request and returns
    [None]; on a park with a campground, the search request is sent before
    [ValueError] is raised. *)
Lemma poll_availability_malformed_date_not_fatal :
  strptime (World := Scripted.World) "15/07/2024" = None /\
  poll_availability "Atlantis" "15/07/2024" 3600 None 1
    (Scripted.world [Examples.no_campground]) =
  (Returned None, Scripted.world [],
   [EvGet "https://www.recreation.gov/search"
      [("q", "Atlantis campground"); ("entity_type", "campground")]
      Examples.no_campground;
    EvResolved []]) /\
  poll_availability "Yosemite" "15/07/2024" 3600 None 1
    (Scripted.world [Examples.one_campground]) =
  (Raised ValueError, Scripted.world [],
   [EvGet "https://www.recreation.gov/search"
      [("q", "Yosemite campground"); ("entity_type", "campground")]
      Examples.one_campground;
    EvResolved [Examples.upper_pines]]).
Proof. repeat split. Qed.

(** ** [poll_availability]: the counter of attempts *)

Section Counter.

Context {World : Type} `{RT : Runtime World}.

Variables (park_name date : string) (interval : Z) (email : option string).
Variables (max_attempts : Z) (w0 : World).

#[local] Abbreviation visited :=
  (visits park_name date interval email max_attempts w0).

#[local] Abbreviation attempt :=
  (poll_attempt park_name date interval email max_attempts).

#[local] Abbreviation loop :=
  (fun fuel => poll_loop fuel park_name date interval email max_attempts).










End Counter.


(** ** Runs on concrete inputs *)

(** A site found at the second attempt: the first attempt finds the only
    campground full on the day, the second finds the site A1 free. *)
Example poll_availability_second_attempt :
  let run :=
    poll_availability "Yosemite" Examples.july_15 0 None 2
      (Scripted.world
         [Examples.one_campground; Examples.july_full;
          Examples.one_campground; Examples.july_a1]) in
  result_of run =
    Returned (Some {| campground := "Upper Pines";
                      available_sites := [Examples.site_a1];
                      date := Examples.july_15 |}) /\
  attempts_run (trace_of run) = 2%nat /\
  schedule (trace_of run) = [Attempt; Pause 0; Attempt].
Proof. repeat split. Qed.

(** A decoded body in which a site record is a number makes
    [check_availability] raise. *)
Example check_availability_misshaped_body :
  result_of (check_availability (Some "232447") Examples.july_15
               (Scripted.world [Examples.july_misshaped])) =
  Raised AttributeError.
Proof. reflexivity. Qed.

(** A pause of negative length raises out of the loop. *)
Example poll_availability_negative_interval :
  result_of (poll_availability "Atlantis" Examples.july_15 (-5) None 2
               (Scripted.world [Examples.no_campground])) =
  Raised ValueError.
Proof. reflexivity. Qed.

(** * Further properties of the scraper *)

(** ** [search_campgrounds] *)

Section SearchProperties.

Context {World : Type} `{RT : Runtime World}.




End SearchProperties.


(** ** [check_availability] *)

Section AvailabilityProperties.

Context {World : Type} `{RT : Runtime World}.

(** X3. The date decides whether [check_availability] asks anything.  A
    date that [strptime] rejects raises [ValueError] with the world
    untouched and no request sent.  A date that parses causes exactly one
    request, for the campground and for the first day of the month of the
    date, and then [ValueError] is not among the outcomes. *)
Theorem check_availability_requests (campground_id : option string)
    (date : string) (w : World) :
  (strptime date = None ->
   check_availability campground_id date w = (Raised ValueError, w, [])) /\
  (forall parsed,
     strptime date = Some parsed ->
     exists response,
       trace_of (check_availability campground_id date w) =
         [EvGet (base_url ++ "/api/camps/availability/campground/"
                   ++ str_of_option campground_id ++ "/month")
            [("start_date", strftime_month parsed)] response] /\
       result_of (check_availability campground_id date w) <>
         Raised ValueError /\
       result_of (check_availability campground_id date w) <> OutOfFuel).
Proof.
  split.
  - apply check_availability_bad_date.
  - intros parsed Hdate. rewrite (check_availability_run _ _ _ _ Hdate).
    eexists. split; [reflexivity |]. unfold result_of. cbn [fst].
    destruct (negb _); [split; discriminate |].
    destruct (json _) as [body |]; [| split; discriminate].
    destruct (body_shaped body); split; discriminate.
Qed.

(** X4. The [except] clause of [check_availability] does not cover a body
    that decodes to something of another shape than the endpoint's: with
    status 200 and such a body, [AttributeError] reaches the caller. *)
Theorem check_availability_misshaped (campground_id : option string)
    (date : string) (parsed : Date) (w w' : World) (response : Response)
    (body : pyval) :
  strptime date = Some parsed ->
  session_get (base_url ++ "/api/camps/availability/campground/"
                 ++ str_of_option campground_id ++ "/month")
              [("start_date", strftime_month parsed)] w = (response, w') ->
  status_code response = 200 ->
  json response = Some body ->
  body_shaped body = false ->
  check_availability campground_id date w =
  (Raised AttributeError, w',
   [EvGet (base_url ++ "/api/camps/availability/campground/"
             ++ str_of_option campground_id ++ "/month")
      [("start_date", strftime_month parsed)] response]).
Proof.
  intros Hdate Hget Hstatus Hjson Hshape.
  rewrite (check_availability_run _ _ _ _ Hdate). rewrite Hget. cbn [fst snd].
  rewrite Hstatus, Hjson, Hshape. reflexivity.
Qed.

Lemma dict_get_in {V : Type} (key : string) (d : list (string * V)) (v : V) :
  dict_get key d = Some v -> In (key, v) d.
Proof.
  induction d as [| [k x] d IH]; [discriminate |].
  cbn [dict_get]. destruct (String.eqb_spec k key) as [-> | Hneq].
  - intros H. inversion H. left. reflexivity.
  - intros H. right. now apply IH.
Qed.

Lemma remove_dashes_no_dash (s : string) :
  ~ In "-"%char (list_ascii_of_string (remove_dashes s)).
Proof.
  induction s as [| c s IH]; [intros [] |].
  cbn [remove_dashes]. destruct (Ascii.eqb_spec c "-"%char) as [-> | Hneq];
    [exact IH |].
  cbn [list_ascii_of_string]. intros [Heq | Hin]; [congruence | now apply IH].
Qed.

(** A record is available on a day only through a binding of that day in
    its [availabilities]. *)
Lemma available_on_binding (target_date : string) (site_data : pyval) :
  available_on target_date site_data = true ->
  exists fields days,
    site_data = PyDict fields /\
    dict_get "availabilities" fields = Some (PyDict days) /\
    In (target_date, PyStr "Available") days.
Proof.
  intros H. apply available_on_iff in H. unfold day_status in H.
  destruct site_data as [| b | n | s | l | fields]; try discriminate.
  destruct (dict_get "availabilities" fields) as [av |] eqn:Hav;
    [| discriminate].
  destruct av as [| b | n | s | l | days]; try discriminate.
  exists fields, days. split; [reflexivity |]. split; [exact Hav |].
  now apply dict_get_in.
Qed.

(** X5. The day looked up is the date with its dashes removed.  So when
    every day key of every site of a well-shaped body contains a dash, as a
    key in ISO form does, [check_availability] finds no site, whatever the
    statuses are. *)
Theorem check_availability_dashed_keys (campground_id : option string)
    (date : string) (parsed : Date) (w w' : World) (response : Response)
    (body : pyval) (campsites : list (string * pyval)) :
  strptime date = Some parsed ->
  session_get (base_url ++ "/api/camps/availability/campground/"
                 ++ str_of_option campground_id ++ "/month")
              [("start_date", strftime_month parsed)] w = (response, w') ->
  status_code response = 200 ->
  json response = Some body ->
  body_shaped body = true ->
  campsites_of body = Some campsites ->
  (forall id fields days key status,
     In (id, PyDict fields) campsites ->
     dict_get "availabilities" fields = Some (PyDict days) ->
     In (key, status) days ->
     In "-"%char (list_ascii_of_string key)) ->
  result_of (check_availability campground_id date w) = Returned [].
Proof.
  intros Hdate Hget Hstatus Hjson Hshape Hsites Hkeys.
  rewrite (check_availability_shaped _ _ _ _ _ _ _ _
             Hdate Hget Hstatus Hjson Hshape Hsites).
  f_equal. unfold sites_available_on.
  assert (Hnone : forall entry, In entry campsites ->
            available_on (remove_dashes date) (snd entry) = false).
  { intros [id site_data] Hin. cbn [snd].
    destruct (available_on (remove_dashes date) site_data) eqn:Hav;
      [| reflexivity].
    exfalso. apply available_on_binding in Hav.
    destruct Hav as (fields & days & -> & Hdays & Hbinding).
    apply (remove_dashes_no_dash date).
    exact (Hkeys _ _ _ _ _ Hin Hdays Hbinding). }
  clear - Hnone. induction campsites as [| entry rest IH]; [reflexivity |].
  cbn [filter]. rewrite (Hnone entry (or_introl eq_refl)).
  apply IH. intros e He. apply Hnone. now right.
Qed.

End AvailabilityProperties.

Lemma check_availability_requests_witness :
  strptime (World := Scripted.World) Examples.july_15 =
    Some {| year := 2024; month := 7; day := 15 |} /\
  strptime (World := Scripted.World) "next week" = None /\
  check_availability (Some "232447") "next week"
    (Scripted.world [Examples.july_a1]) =
    (Raised ValueError, Scripted.world [Examples.july_a1], []) /\
  exists response,
    trace_of (check_availability (Some "232447") Examples.july_15
                (Scripted.world [Examples.july_a1])) =
      [EvGet "https://www.recreation.gov/api/camps/availability/campground/232447/month"
         [("start_date", "2024-07-01")] response].
Proof.
  split; [reflexivity |]. split; [reflexivity |]. split.
  - exact (proj1 (check_availability_requests (RT := Scripted.runtime)
                    (Some "232447") "next week"
                    (Scripted.world [Examples.july_a1])) eq_refl).
  - destruct (proj2 (check_availability_requests (RT := Scripted.runtime)
                       (Some "232447") Examples.july_15
                       (Scripted.world [Examples.july_a1]))
                    {| year := 2024; month := 7; day := 15 |} eq_refl)
      as (response & Htrace & _).
    exists response. exact Htrace.
Defined.

Lemma check_availability_misshaped_witness :
  Scripted.runtime.(session_get)
    "https://www.recreation.gov/api/camps/availability/campground/232447/month"
    [("start_date", "2024-07-01")]
    (Scripted.world [Examples.july_misshaped]) =
    (Examples.july_misshaped, Scripted.world []) /\
  body_shaped
    (Scripted.availability_body
       [("A1", Scripted.raw_site [("site", PyStr "A1")]
                 [("20240715", "Available")]);
        ("B2", PyNum "5")]) = false /\
  result_of (check_availability (Some "232447") Examples.july_15
               (Scripted.world [Examples.july_misshaped])) =
    Raised AttributeError.
Proof.
  split; [reflexivity |]. split; [reflexivity |].
  rewrite (check_availability_misshaped (RT := Scripted.runtime)
             (Some "232447") Examples.july_15
             {| year := 2024; month := 7; day := 15 |}
             (Scripted.world [Examples.july_misshaped]) (Scripted.world [])
             Examples.july_misshaped _
             eq_refl eq_refl eq_refl eq_refl eq_refl).
  reflexivity.
Defined.

Lemma check_availability_dashed_keys_witness :
  let campsites :=
    [("A1", Scripted.raw_site [("site", PyStr "A1")]
              [("2024-07-15T00:00:00Z", "Available")])] in
  let response := Scripted.json_page (Scripted.availability_body campsites) in
  body_shaped (Scripted.availability_body campsites) = true /\
  result_of (check_availability (Some "232447") Examples.july_15
               (Scripted.world [response])) = Returned [].
Proof.
  cbv zeta. split; [reflexivity |].
  apply (check_availability_dashed_keys (RT := Scripted.runtime)
           (Some "232447") Examples.july_15
           {| year := 2024; month := 7; day := 15 |}
           (Scripted.world
              [Scripted.json_page
                 (Scripted.availability_body
                    [("A1", Scripted.raw_site [("site", PyStr "A1")]
                              [("2024-07-15T00:00:00Z", "Available")])])])
           (Scripted.world []) _ _ _
           eq_refl eq_refl eq_refl eq_refl eq_refl eq_refl).
  intros id fields days key status Hin Hdays Hbinding.
  destruct Hin as [Hin | []]. inversion Hin; subst.
  cbn in Hdays. inversion Hdays; subst.
  destruct Hbinding as [Hb | []]. inversion Hb; subst.
  cbn. tauto.
Defined.

(** ** [send_notification] *)

Section NotificationProperties.

Context {World : Type} `{RT : Runtime World}.


End NotificationProperties.

(** ** [poll_availability] *)

Section PollProperties.

Context {World : Type} `{RT : Runtime World}.

(** The requests of [check_availability] go to the availability
    endpoint. *)
Lemma check_availability_queries (campground_id : option string)
    (date : string) (w : World) :
  forallb is_availability_query
    (trace_of (check_availability campground_id date w)) = true.
Proof.
  destruct (strptime date) as [parsed |] eqn:Hdate.
  - rewrite (check_availability_run _ _ _ _ Hdate). reflexivity.
  - rewrite (check_availability_bad_date _ _ _ Hdate). reflexivity.
Qed.

Lemma forallb_weaken {A : Type} (P Q : A -> bool) (l : list A) :
  (forall x, P x = true -> Q x = true) ->
  forallb P l = true -> forallb Q l = true.
Proof.
  intros HPQ H. rewrite forallb_forall in *. auto.
Qed.

(** A property of events that holds of the events of the [for] loop. *)
Lemma scan_campgrounds_events (Q : event -> bool) (date : string)
    (email : option string) :
  (forall e, is_availability_query e = true -> Q e = true) ->
  (forall c sites, Q (EvChecked c sites) = true) ->
  (truthy email <> None ->
   forall msg c sites sent,
     Q (EvSmtp msg sent) = true /\ Q (EvNotified c sites sent) = true) ->
  forall campgrounds w,
    forallb Q (trace_of (scan_campgrounds date email campgrounds w)) = true.
Proof.
  intros Hquery Hcheck Hmail.
  induction campgrounds as [| c rest IH]; intros w; [reflexivity |].
  rewrite scan_campgrounds_cons.
  pose proof (forallb_weaken _ _ _ Hquery
                (check_availability_queries (campground_id c) date w)) as Hq.
  destruct (check_availability (campground_id c) date w)
    as [[[sites | e |] w1] t1]; unfold trace_of in *; cbn [snd] in *;
    try exact Hq.
  destruct sites as [| s ss].
  - specialize (IH w1).
    destruct (scan_campgrounds date email rest w1) as [[o w2] t2].
    cbn [snd] in *. rewrite forallb_app, Hq. cbn [forallb].
    rewrite Hcheck, IH. reflexivity.
  - cbn zeta. destruct (truthy email) as [address |] eqn:Htruthy.
    + destruct (send_notification_run address (campground_name c) s ss
                  date w1) as [msg Hsend].
      rewrite Hsend. cbn [snd].
      assert (Hsome : Some address <> None) by discriminate.
      destruct (Hmail Hsome msg (campground_name c) (s :: ss)
                  (fst (smtp_send msg w1))) as [Hsmtp Hnotified].
      rewrite forallb_app, Hq. cbn [forallb app].
      rewrite Hcheck, Hsmtp, Hnotified. reflexivity.
    + cbn [snd]. rewrite forallb_app, Hq. cbn [forallb].
      rewrite Hcheck. reflexivity.
Qed.

(** A property of events that holds of the events of the whole loop. *)
Lemma poll_loop_events (Q : event -> bool) (park_name date : string)
    (interval : Z) (email : option string) (max_attempts : Z) :
  (forall e, is_query e = true -> Q e = true) ->
  (forall campgrounds, Q (EvResolved campgrounds) = true) ->
  Q (EvSleep interval) = true ->
  (forall c sites, Q (EvChecked c sites) = true) ->
  (truthy email <> None ->
   forall msg c sites sent,
     Q (EvSmtp msg sent) = true /\ Q (EvNotified c sites sent) = true) ->
  forall fuel attempts w,
    forallb Q (trace_of (poll_loop fuel park_name date interval email
                           max_attempts attempts w)) = true.
Proof.
  intros Hquery Hresolved Hsleep Hcheck Hmail.
  assert (Havail : forall e, is_availability_query e = true -> Q e = true).
  { intros e He. apply Hquery. unfold is_availability_query in He.
    now apply andb_true_iff in He. }
  induction fuel as [| fuel IH]; intros attempts w; [reflexivity |].
  rewrite poll_loop_step.
  destruct (attempts <? max_attempts); [| reflexivity].
  rewrite poll_attempt_run. cbn zeta.
  match goal with
  | |- context [scan_campgrounds date email ?cs ?w1] =>
      pose proof (scan_campgrounds_events Q date email Havail Hcheck Hmail
                    cs w1) as Hscan;
      destruct (scan_campgrounds date email cs w1) as [[o w2] t]
  end.
  unfold trace_of in *. cbn [snd] in Hscan.
  assert (Hhead : forall url params response cs tail,
            forallb Q tail = true ->
            forallb Q (EvGet url params response :: EvResolved cs :: tail)
              = true).
  { intros url params response cs tail Htail. cbn [forallb].
    rewrite Hquery by reflexivity. rewrite Hresolved, Htail. reflexivity. }
  destruct o as [[result |] | e |]; cbn [snd app]; try (now apply Hhead).
  destruct (attempts + 1 <? max_attempts); [destruct (interval <? 0) |].
  - cbn [snd app]. now apply Hhead.
  - specialize (IH (attempts + 1) (sleep_world interval w2)).
    destruct (poll_loop fuel _ _ _ _ _ _ _) as [[o3 w3] t3].
    cbn [snd app] in *. apply Hhead.
    rewrite !forallb_app, Hscan, IH. cbn [forallb]. rewrite Hsleep.
    reflexivity.
  - specialize (IH (attempts + 1) w2).
    destruct (poll_loop fuel _ _ _ _ _ _ _) as [[o3 w3] t3].
    cbn [snd app] in *. apply Hhead.
    rewrite forallb_app, Hscan, IH. reflexivity.
Qed.

(** X7. Without an address, that is with [email] equal to [None] or to the
    empty string, a run of [poll_availability] never calls the mail
    transport and never invokes [send_notification], whatever it finds. *)
Theorem poll_availability_without_email (park_name date : string)
    (interval : Z) (email : option string) (max_attempts : Z) (w : World) :
  email = None \/ email = Some "" ->
  forall e,
    In e (trace_of (poll_availability park_name date interval email
                      max_attempts w)) ->
    is_mail e = false /\ is_notification e = false.
Proof.
  intros Hemail e Hin.
  assert (Htruthy : truthy email = None).
  { destruct Hemail as [-> | ->]; reflexivity. }
  assert (Hall : forallb
            (fun e => negb (is_mail e) && negb (is_notification e))
            (trace_of (poll_availability park_name date interval email
                         max_attempts w)) = true).
  { unfold poll_availability. apply poll_loop_events; try reflexivity.
    - intros [] Hq; try discriminate; reflexivity.
    - intros Hne. contradiction. }
  rewrite forallb_forall in Hall. specialize (Hall e Hin).
  apply andb_true_iff in Hall. destruct Hall as [Hm Hn].
  now rewrite negb_true_iff in Hm, Hn.
Qed.

(** X9. A bound that is zero or negative: for [max_attempts <= 0],
    [poll_availability] returns [None] at once, with the world unchanged
    and no event. *)
Theorem poll_availability_no_attempt_allowed (park_name date : string)
    (interval : Z) (email : option string) (max_attempts : Z) (w : World) :
  max_attempts <= 0 ->
  poll_availability park_name date interval email max_attempts w =
  (Returned None, w, []).
Proof.
  intros Hmax. unfold poll_availability. rewrite poll_loop_step.
  destruct (Z.ltb_spec 0 max_attempts); [lia | reflexivity].
Qed.

(** X13. In every run of [poll_availability], each call of
    [check_availability], whatever it hands back, is made for the
    campground that stands, in the list the resolver gave in that attempt,
    right after the ones already checked in the attempt: the campgrounds
    are checked in the order of the resolver and none is skipped. *)
Theorem poll_availability_resolver_order (park_name date : string)
    (interval : Z) (email : option string) (max_attempts : Z) (w : World)
    (pre post : list event) (c : Campground) (sites : list Site) :
  trace_of (poll_availability park_name date interval email max_attempts w) =
    (pre ++ EvChecked c sites :: post)%list ->
  exists campgrounds k,
    position_after pre = Some (campgrounds, k) /\
    nth_error campgrounds k = Some c.
Proof.
  intros Htrace. apply (in_resolver_order_at pre post c sites).
  rewrite <- Htrace. apply poll_loop_in_order.
Qed.

Lemma first_hit_split (t : list event) (c : Campground) (sites : list Site)
    (tail : list event) :
  first_hit t = Some (c, sites, tail) ->
  exists pre, t = (pre ++ EvChecked c sites :: tail)%list.
Proof.
  induction t as [| e t IH]; [discriminate |].
  assert (Hskip : first_hit t = Some (c, sites, tail) ->
                  exists pre, e :: t = (pre ++ EvChecked c sites :: tail)%list).
  { intros H. destruct (IH H) as [pre ->]. exists (e :: pre). reflexivity. }
  destruct e as [url params response | msg sent | seconds | cs | c1 sites1
                 | c1 sites1 sent]; cbn [first_hit]; try exact Hskip.
  destruct sites1 as [| s ss]; [exact Hskip |].
  intros H. inversion H; subst. exists []. reflexivity.
Qed.

(** The list a position refers to was resolved in the trace. *)
Lemma position_resolved (t : list event) :
  forall position campgrounds k,
    fold_left track t position = Some (campgrounds, k) ->
    In (EvResolved campgrounds) t \/
    exists k', position = Some (campgrounds, k').
Proof.
  induction t as [| e t IH]; intros position campgrounds k H.
  - right. exists k. exact H.
  - cbn [fold_left] in H. destruct (IH _ _ _ H) as [Hin | [k' Hpos]].
    + left. now right.
    + destruct e as [url params response | msg sent | seconds | cs | c1 sites1
                     | c1 sites1 sent]; cbn [track] in Hpos;
        try (right; exists k'; exact Hpos).
      * inversion Hpos; subst. left. left. reflexivity.
      * destruct position as [[cs0 k0] |]; [| discriminate].
        inversion Hpos; subst. right. exists k0. reflexivity.
Qed.

(** X12. A result is never made up: when [poll_availability] returns one,
    its date is the date asked for, its sites are a list that
    [check_availability] handed back in the run for some campground, its
    name is the name of that campground, and that campground is in a list
    the resolver gave in the run. *)
Theorem poll_availability_result_origin (park_name asked : string)
    (interval : Z) (email : option string) (max_attempts : Z) (w : World)
    (result : PollResult) :
  result_of (poll_availability park_name asked interval email max_attempts w) =
    Returned (Some result) ->
  date result = asked /\
  exists c campgrounds,
    In (EvChecked c (available_sites result))
       (trace_of (poll_availability park_name asked interval email
                    max_attempts w)) /\
    campground result = campground_name c /\
    In (EvResolved campgrounds)
       (trace_of (poll_availability park_name asked interval email
                    max_attempts w)) /\
    In c campgrounds.
Proof.
  unfold poll_availability. intros Hres.
  pose proof (poll_loop_shape park_name asked interval email max_attempts
                (S (Z.to_nat max_attempts)) 0 w) as Hshape.
  destruct (first_hit _) as [[[c sites] tail] |] eqn:Hhit;
    [| destruct Hshape as [Hno _]; exfalso; exact (Hno _ Hres)].
  destruct Hshape as (Hfound & _). rewrite Hres in Hfound.
  inversion Hfound; subst result. cbn [date campground available_sites].
  split; [reflexivity |].
  destruct (first_hit_split _ _ _ _ Hhit) as [pre Htrace].
  destruct (in_resolver_order_at pre tail c sites) as (cs & k & Hpos & Hnth).
  { rewrite <- Htrace. apply poll_loop_in_order. }
  exists c, cs. rewrite Htrace.
  split; [apply in_or_app; right; left; reflexivity |].
  split; [reflexivity |]. split.
  - unfold position_after in Hpos.
    destruct (position_resolved _ _ _ _ Hpos) as [Hin | [k' Hnone]];
      [| discriminate].
    apply in_or_app. now left.
  - eapply nth_error_In. exact Hnth.
Qed.

(** X14. In a run of [poll_availability], a check that is followed by
    another check handed back no site: only the last check of a run can
    find sites. *)
Theorem poll_availability_earlier_checks_empty (park_name date : string)
    (interval : Z) (email : option string) (max_attempts : Z) (w : World)
    (pre between post : list event) (c c' : Campground)
    (sites sites' : list Site) :
  trace_of (poll_availability park_name date interval email max_attempts w) =
    (pre ++ EvChecked c sites :: between ++ EvChecked c' sites' :: post)%list ->
  sites = [].
Proof.
  unfold poll_availability. intros Htrace.
  destruct sites as [| s ss]; [reflexivity |]. exfalso.
  pose proof (poll_loop_shape park_name date interval email max_attempts
                (S (Z.to_nat max_attempts)) 0 w) as Hshape.
  rewrite Htrace in Hshape.
  destruct (first_hit _) as [[[c0 sites0] tail] |] eqn:Hhit;
    [| exact (first_hit_exists _ _ _ _ _ Hhit)].
  destruct Hshape as (_ & Htail & _).
  assert (Hchecks : existsb is_check tail = false).
  { destruct Htail as [-> | (msg & sent & ->)]; reflexivity. }
  destruct (first_hit_found _ _ _ _ _ _ _ _ Hhit Hchecks) as (_ & _ & Heq).
  rewrite Heq, existsb_app in Hchecks. cbn in Hchecks.
  rewrite orb_true_r in Hchecks. discriminate.
Qed.



(** The [for] loop neither resolves, nor pauses, nor searches. *)
Lemma scan_campgrounds_inner (date : string) (email : option string)
    (campgrounds : list Campground) (w : World) :
  schedule (trace_of (scan_campgrounds date email campgrounds w)) = [] /\
  filter is_search_query
    (trace_of (scan_campgrounds date email campgrounds w)) = [].
Proof.
  pose proof (scan_campgrounds_events
                (fun e => negb (is_search_query e) &&
                          match e with
                          | EvResolved _ | EvSleep _ => false
                          | _ => true
                          end)
                date email) as H.
  specialize (H ltac:(intros [] He; try discriminate;
                      unfold is_availability_query in He;
                      apply andb_true_iff in He; destruct He as [_ He];
                      rewrite He; reflexivity)
                ltac:(reflexivity)
                ltac:(intros _ msg c sites sent; split; reflexivity)
                campgrounds w).
  induction (trace_of (scan_campgrounds date email campgrounds w))
    as [| e t IH]; [split; reflexivity |].
  cbn [forallb] in H. apply andb_true_iff in H. destruct H as [He Ht].
  destruct (IH Ht) as [Hs Hf]. apply andb_true_iff in He.
  destruct He as [Hnot Hkind]. apply negb_true_iff in Hnot.
  cbn [filter]. rewrite Hnot.
  destruct e; try discriminate; cbn [schedule]; auto.
Qed.

Lemma attempts_run_app (t1 t2 : list event) :
  attempts_run (t1 ++ t2) = (attempts_run t1 + attempts_run t2)%nat.
Proof.
  unfold attempts_run. rewrite schedule_app, filter_app. apply length_app.
Qed.

(** The schedule of the loop, given fuel enough. *)
Lemma poll_loop_schedule (park_name date : string) (interval : Z)
    (email : option string) (max_attempts : Z) (n : nat) :
  forall attempts w,
    (Z.to_nat (max_attempts - attempts) <= n)%nat ->
    exists k,
      (k <= Z.to_nat (max_attempts - attempts))%nat /\
      (attempts < max_attempts -> (1 <= k)%nat) /\
      schedule (trace_of (poll_loop (S n) park_name date interval email
                            max_attempts attempts w)) =
        spaced_attempts k interval.
Proof.
  induction n as [| n IH]; intros attempts w Hn; rewrite poll_loop_step.
  - destruct (Z.ltb_spec attempts max_attempts); [lia |].
    exists O. split; [lia |]. split; [lia | reflexivity].
  - destruct (Z.ltb_spec attempts max_attempts) as [Hlt | Hge];
      [| exists O; split; [lia |]; split; [lia | reflexivity]].
    rewrite poll_attempt_run. cbn zeta.
    match goal with
    | |- context [scan_campgrounds date email ?cs ?w1] =>
        destruct (scan_campgrounds_inner date email cs w1) as [Hscan _];
        destruct (scan_campgrounds date email cs w1) as [[o w2] t]
    end.
    unfold trace_of in *. cbn [snd] in Hscan.
    assert (Hone : exists k,
              (k <= Z.to_nat (max_attempts - attempts))%nat /\
              (attempts < max_attempts -> (1 <= k)%nat) /\
              Attempt :: schedule t = spaced_attempts k interval).
    { exists 1%nat. rewrite Hscan. split; [lia |]. split; [lia | reflexivity]. }
    destruct o as [[result |] | e |]; cbn [snd app schedule]; try exact Hone.
    destruct (Z.ltb_spec (attempts + 1) max_attempts) as [Hmore | Hlast];
      [destruct (interval <? 0) |]; cbn [snd app schedule]; try exact Hone.
    + destruct (IH (attempts + 1) (sleep_world interval w2)) as
        (k & Hk & Hpos & Hsched); [lia |].
      destruct (poll_loop (S n) _ _ _ _ _ _ _) as [[o3 w3] t3].
      cbn [snd app schedule] in *. exists (S k). split; [lia |].
      split; [lia |].
      rewrite !schedule_app, Hscan, Hsched. cbn [app schedule].
      specialize (Hpos Hmore). destruct k as [| k]; [lia | reflexivity].
    + destruct (IH (attempts + 1) w2) as (k & Hk & _ & Hsched); [lia |].
      destruct (poll_loop (S n) _ _ _ _ _ _ _) as [[o3 w3] t3].
      cbn [snd app schedule] in *. exists 1%nat. split; [lia |].
      split; [lia |].
      rewrite schedule_app, Hscan, Hsched.
      replace k with O by lia. reflexivity.
Qed.

(** X10. Every run of [poll_availability], however it ends, makes at most
    [max_attempts] attempts, and its schedule is a run of attempts with a
    pause of exactly [interval] between consecutive ones: a pause is always
    followed by another attempt, and no run ends on a pause. *)
Theorem poll_availability_schedule (park_name date : string) (interval : Z)
    (email : option string) (max_attempts : Z) (w : World) :
  exists k,
    (k <= Z.to_nat max_attempts)%nat /\
    attempts_run (trace_of (poll_availability park_name date interval email
                              max_attempts w)) = k /\
    schedule (trace_of (poll_availability park_name date interval email
                          max_attempts w)) = spaced_attempts k interval.
Proof.
  unfold poll_availability.
  destruct (poll_loop_schedule park_name date interval email max_attempts
              (Z.to_nat max_attempts) 0 w) as (k & Hk & _ & Hsched).
  { rewrite Z.sub_0_r. apply Nat.le_refl. }
  exists k. rewrite Z.sub_0_r in Hk. split; [exact Hk |].
  split; [| exact Hsched].
  unfold attempts_run. rewrite Hsched. clear.
  induction k as [| k IH]; [reflexivity |].
  cbn [spaced_attempts filter is_attempt List.length]. f_equal.
  destruct k as [| k]; [reflexivity |]. cbn [filter is_attempt]. exact IH.
Qed.

(** X15. A run of [poll_availability] sends exactly one search request per
    attempt, and none otherwise. *)
Theorem poll_availability_one_search_per_attempt (park_name date : string)
    (interval : Z) (email : option string) (max_attempts : Z) (w : World) :
  List.length
    (filter is_search_query
       (trace_of (poll_availability park_name date interval email
                    max_attempts w))) =
  attempts_run (trace_of (poll_availability park_name date interval email
                            max_attempts w)).
Proof.
  unfold poll_availability. generalize (S (Z.to_nat max_attempts)) as fuel.
  generalize 0 as attempts. intros attempts fuel. revert attempts w.
  induction fuel as [| fuel IH]; intros attempts w; [reflexivity |].
  rewrite poll_loop_step.
  destruct (attempts <? max_attempts); [| reflexivity].
  rewrite poll_attempt_run. cbn zeta.
  match goal with
  | |- context [scan_campgrounds date email ?cs ?w1] =>
      destruct (scan_campgrounds_inner date email cs w1) as [Hsched Hsearch];
      destruct (scan_campgrounds date email cs w1) as [[o w2] t]
  end.
  unfold trace_of in *. cbn [snd] in Hsched, Hsearch.
  assert (Hone : forall url params response cs rest,
            url = base_url ++ "/search" ->
            List.length (filter is_search_query rest) = attempts_run rest ->
            List.length (filter is_search_query
                           (EvGet url params response :: EvResolved cs
                              :: rest)) =
            attempts_run (EvGet url params response :: EvResolved cs :: rest)).
  { intros url params response cs rest -> Hrest.
    unfold attempts_run in *. cbn. f_equal. exact Hrest. }
  assert (Ht : List.length (filter is_search_query t) = attempts_run t).
  { unfold attempts_run. rewrite Hsched, Hsearch. reflexivity. }
  destruct o as [[result |] | e |]; cbn [snd app];
    try (apply Hone; [reflexivity | exact Ht]).
  destruct (attempts + 1 <? max_attempts); [destruct (interval <? 0) |];
    cbn [snd app]; try (apply Hone; [reflexivity | exact Ht]).
  - specialize (IH (attempts + 1) (sleep_world interval w2)).
    destruct (poll_loop fuel _ _ _ _ _ _ _) as [[o3 w3] t3].
    cbn [snd] in *. apply Hone; [reflexivity |].
    rewrite <- app_assoc, !filter_app, !length_app, !attempts_run_app.
    rewrite Ht, IH. reflexivity.
  - specialize (IH (attempts + 1) w2).
    destruct (poll_loop fuel _ _ _ _ _ _ _) as [[o3 w3] t3].
    cbn [snd] in *. apply Hone; [reflexivity |].
    rewrite filter_app, length_app, attempts_run_app, Ht, IH. reflexivity.
Qed.

(** X11. A pause of negative length is never taken.  With
    [interval < 0], a run of [poll_availability] makes at most one attempt,
    and when [max_attempts] is 2 or more it does not return [None]: it
    returns what the first attempt finds, or it raises. *)
Theorem poll_availability_negative_pause (park_name date : string)
    (interval : Z) (email : option string) (max_attempts : Z) (w : World) :
  interval < 0 ->
  (attempts_run (trace_of (poll_availability park_name date interval email
                             max_attempts w)) <= 1)%nat /\
  (2 <= max_attempts ->
   result_of (poll_availability park_name date interval email
                max_attempts w) <> Returned None).
Proof.
  intros Hneg. unfold poll_availability. rewrite poll_loop_step.
  destruct (Z.ltb_spec 0 max_attempts) as [Hpos | Hle];
    [| split; [apply Nat.le_0_l | lia]].
  rewrite poll_attempt_run. cbn zeta.
  match goal with
  | |- context [scan_campgrounds date email ?cs ?w1] =>
      destruct (scan_campgrounds_inner date email cs w1) as [Hsched _];
      destruct (scan_campgrounds date email cs w1) as [[o w2] t]
  end.
  unfold trace_of, result_of in *. cbn [fst snd] in *.
  assert (Hone : forall url params response cs,
            (attempts_run (EvGet url params response :: EvResolved cs :: t)
             <= 1)%nat).
  { intros. unfold attempts_run. cbn [schedule]. rewrite Hsched.
    apply Nat.le_refl. }
  destruct o as [[result |] | e |]; cbn [fst snd app];
    try (split; [apply Hone | discriminate]).
  destruct (Z.ltb_spec (0 + 1) max_attempts) as [Hmore | Hlast].
  - destruct (Z.ltb_spec interval 0); [| lia]. cbn [fst snd app].
    split; [apply Hone | discriminate].
  - destruct (Z.to_nat max_attempts) as [| n] eqn:Hfuel; [lia |].
    rewrite poll_loop_step.
    destruct (Z.ltb_spec (0 + 1) max_attempts); [lia |].
    cbn [fst snd app]. rewrite app_nil_r.
    split; [apply Hone | intros; lia].
Qed.






End PollProperties.

Lemma poll_availability_without_email_witness :
  let run :=
    poll_availability "Yosemite" Examples.july_15 0 (Some "") 1
      (Scripted.world [Examples.one_campground; Examples.july_a1]) in
  (Some "" = None \/ Some "" = Some "") /\
  result_of run =
    Returned (Some {| campground := "Upper Pines";
                      available_sites := [Examples.site_a1];
                      date := Examples.july_15 |}) /\
  is_mail (EvChecked Examples.upper_pines [Examples.site_a1]) = false.
Proof.
  cbv zeta. split; [right; reflexivity |]. split; [reflexivity |].
  refine (proj1 (poll_availability_without_email (RT := Scripted.runtime)
                   "Yosemite" Examples.july_15 0 (Some "") 1
                   (Scripted.world [Examples.one_campground; Examples.july_a1])
                   (or_intror eq_refl) _ _)).
  vm_compute. tauto.
Defined.

Lemma poll_availability_no_attempt_allowed_witness :
  -3 <= 0 /\
  poll_availability "Yosemite" Examples.july_15 3600 None (-3)
    (Scripted.world [Examples.one_campground]) =
  (Returned None, Scripted.world [Examples.one_campground], []).
Proof.
  assert (H : -3 <= 0) by lia. split; [exact H |].
  exact (poll_availability_no_attempt_allowed (RT := Scripted.runtime)
           "Yosemite" Examples.july_15 3600 None (-3)
           (Scripted.world [Examples.one_campground]) H).
Defined.

Lemma poll_availability_negative_pause_witness :
  -5 < 0 /\ 2 <= 3 /\
  result_of (poll_availability "Atlantis" Examples.july_15 (-5) None 3
               (Scripted.world [Examples.no_campground])) <> Returned None.
Proof.
  assert (Hneg : -5 < 0) by lia. assert (Hmax : 2 <= 3) by lia.
  split; [exact Hneg |]. split; [exact Hmax |].
  exact (proj2 (poll_availability_negative_pause (RT := Scripted.runtime)
                  "Atlantis" Examples.july_15 (-5) None 3
                  (Scripted.world [Examples.no_campground]) Hneg) Hmax).
Defined.


Lemma poll_availability_resolver_order_witness :
  let run :=
    poll_availability "Yosemite" Examples.july_15 0 None 1
      (Scripted.world
         [Examples.two_campgrounds; Examples.july_full; Examples.july_full]) in
  trace_of run =
    (firstn 5 (trace_of run) ++ EvChecked Examples.lower_pines []
       :: skipn 6 (trace_of run))%list /\
  exists campgrounds k,
    position_after (firstn 5 (trace_of run)) = Some (campgrounds, k) /\
    nth_error campgrounds k = Some Examples.lower_pines.
Proof.
  cbv zeta.
  assert (Htrace :
    trace_of (poll_availability "Yosemite" Examples.july_15 0 None 1
                (Scripted.world
                   [Examples.two_campgrounds; Examples.july_full;
                    Examples.july_full])) =
    (firstn 5 (trace_of (poll_availability "Yosemite" Examples.july_15 0 None 1
                (Scripted.world
                   [Examples.two_campgrounds; Examples.july_full;
                    Examples.july_full])))
       ++ EvChecked Examples.lower_pines []
       :: skipn 6 (trace_of (poll_availability "Yosemite" Examples.july_15 0
                None 1
                (Scripted.world
                   [Examples.two_campgrounds; Examples.july_full;
                    Examples.july_full]))))%list).
  { vm_compute. reflexivity. }
  split; [exact Htrace |].
  exact (poll_availability_resolver_order (RT := Scripted.runtime)
           "Yosemite" Examples.july_15 0 None 1 _ _ _ _ _ Htrace).
Defined.

Lemma poll_availability_result_origin_witness :
  let run :=
    poll_availability "Yosemite" Examples.july_15 0 None 2
      (Scripted.world
         [Examples.one_campground; Examples.july_full;
          Examples.one_campground; Examples.july_a1]) in
  result_of run =
    Returned (Some {| campground := "Upper Pines";
                      available_sites := [Examples.site_a1];
                      date := Examples.july_15 |}) /\
  exists c,
    In (EvChecked c [Examples.site_a1]) (trace_of run) /\
    "Upper Pines" = campground_name c.
Proof.
  cbv zeta.
  assert (Hres :
    result_of (poll_availability "Yosemite" Examples.july_15 0 None 2
                 (Scripted.world
                    [Examples.one_campground; Examples.july_full;
                     Examples.one_campground; Examples.july_a1])) =
    Returned (Some {| campground := "Upper Pines";
                      available_sites := [Examples.site_a1];
                      date := Examples.july_15 |})) by reflexivity.
  split; [exact Hres |].
  destruct (poll_availability_result_origin (RT := Scripted.runtime)
              _ _ _ _ _ _ _ Hres) as (_ & c & cs & Hin & Hname & _).
  exists c. split; [exact Hin | exact Hname].
Defined.

Lemma poll_availability_earlier_checks_empty_witness :
  let run :=
    poll_availability "Yosemite" Examples.july_15 0 None 1
      (Scripted.world
         [Examples.two_campgrounds; Examples.july_full; Examples.july_a1]) in
  trace_of run =
    (firstn 3 (trace_of run) ++ EvChecked Examples.upper_pines []
       :: firstn 1 (skipn 4 (trace_of run))
       ++ EvChecked Examples.lower_pines [Examples.site_a1]
       :: skipn 6 (trace_of run))%list /\
  @nil Site = [].
Proof.
  cbv zeta.
  assert (Htrace :
    trace_of (poll_availability "Yosemite" Examples.july_15 0 None 1
      (Scripted.world
         [Examples.two_campgrounds; Examples.july_full; Examples.july_a1])) =
    (firstn 3 (trace_of (poll_availability "Yosemite" Examples.july_15 0 None 1
      (Scripted.world
         [Examples.two_campgrounds; Examples.july_full; Examples.july_a1])))
       ++ EvChecked Examples.upper_pines []
       :: firstn 1 (skipn 4 (trace_of (poll_availability "Yosemite"
            Examples.july_15 0 None 1
            (Scripted.world
               [Examples.two_campgrounds; Examples.july_full;
                Examples.july_a1]))))
       ++ EvChecked Examples.lower_pines [Examples.site_a1]
       :: skipn 6 (trace_of (poll_availability "Yosemite" Examples.july_15 0
            None 1
            (Scripted.world
               [Examples.two_campgrounds; Examples.july_full;
                Examples.july_a1]))))%list).
  { vm_compute. reflexivity. }
  split; [exact Htrace |].
  exact (poll_availability_earlier_checks_empty (RT := Scripted.runtime)
           "Yosemite" Examples.july_15 0 None 1 _ _ _ _ _ _ _ _ Htrace).
Defined.

(** ** [poll_availability]: what a run covers *)

Section PollCoverage.

Context {World : Type} `{RT : Runtime World}.

Lemma checked_campgrounds_app (t1 t2 : list event) :
  checked_campgrounds (t1 ++ t2) =
  (checked_campgrounds t1 ++ checked_campgrounds t2)%list.
Proof.
  induction t1 as [| e t1 IH]; [reflexivity |].
  destruct e; cbn; rewrite ?IH; reflexivity.
Qed.

Lemma resolved_campgrounds_app (t1 t2 : list event) :
  resolved_campgrounds (t1 ++ t2) =
  (resolved_campgrounds t1 ++ resolved_campgrounds t2)%list.
Proof.
  induction t1 as [| e t1 IH]; [reflexivity |].
  destruct e; cbn; rewrite ?IH, ?app_assoc; reflexivity.
Qed.

(** [check_availability] sends at most one request, resolves nothing and
    records no check. *)
Lemma check_availability_single (campground_id : option string)
    (date : string) (w : World) :
  (List.length
     (filter is_availability_query
        (trace_of (check_availability campground_id date w))) <= 1)%nat /\
  checked_campgrounds (trace_of (check_availability campground_id date w))
    = [] /\
  resolved_campgrounds (trace_of (check_availability campground_id date w))
    = [].
Proof.
  destruct (strptime date) as [parsed |] eqn:Hdate.
  - rewrite (check_availability_run _ _ _ _ Hdate).
    unfold trace_of. cbn [snd]. split; [| split; reflexivity].
    etransitivity; [apply filter_length_le | apply Nat.le_refl].
  - rewrite (check_availability_bad_date _ _ _ Hdate). cbn.
    split; [lia | split; reflexivity].
Qed.

(** The [for] loop: at most one request per campground, and when it ends
    without a result it has checked every campground it was given. *)
Lemma scan_campgrounds_coverage (date : string) (email : option string)
    (campgrounds : list Campground) :
  forall w,
    (List.length
       (filter is_availability_query
          (trace_of (scan_campgrounds date email campgrounds w)))
     <= List.length campgrounds)%nat /\
    resolved_campgrounds
      (trace_of (scan_campgrounds date email campgrounds w)) = [] /\
    (result_of (scan_campgrounds date email campgrounds w) = Returned None ->
     checked_campgrounds
       (trace_of (scan_campgrounds date email campgrounds w)) = campgrounds).
Proof.
  induction campgrounds as [| c rest IH]; intros w.
  - cbn. split; [lia | split; reflexivity].
  - rewrite scan_campgrounds_cons.
    destruct (check_availability_single (campground_id c) date w)
      as (Hcount & Hchecked & Hresolved).
    destruct (check_availability (campground_id c) date w)
      as [[[sites | e |] w1] t1]; unfold trace_of, result_of in *;
      cbn [fst snd] in *.
    + destruct sites as [| s ss].
      * destruct (IH w1) as (IHcount & IHresolved & IHchecked).
        destruct (scan_campgrounds date email rest w1) as [[o w2] t2].
        cbn [fst snd] in *.
        rewrite filter_app, length_app, checked_campgrounds_app,
          resolved_campgrounds_app, Hchecked, Hresolved.
        cbn [filter is_availability_query is_query andb app List.length
             checked_campgrounds resolved_campgrounds].
        split; [lia |]. split; [exact IHresolved |].
        intros Hnone. rewrite (IHchecked Hnone). reflexivity.
      * cbn zeta. destruct (truthy email) as [address |].
        -- destruct (send_notification_run address (campground_name c) s ss
                       date w1) as [msg Hsend].
           rewrite Hsend. cbn [fst snd].
           rewrite filter_app, length_app, resolved_campgrounds_app,
             Hresolved. cbn. split; [lia |]. split; [reflexivity |].
           discriminate.
        -- cbn [fst snd].
           rewrite filter_app, length_app, resolved_campgrounds_app,
             Hresolved. cbn. split; [lia |]. split; [reflexivity |].
           discriminate.
    + split; [cbn [List.length]; lia |]. split; [exact Hresolved |].
      discriminate.
    + split; [cbn [List.length]; lia |]. split; [exact Hresolved |].
      discriminate.
Qed.

Lemma poll_loop_coverage (park_name date : string) (interval : Z)
    (email : option string) (max_attempts : Z) (fuel : nat) :
  forall attempts w,
    (List.length
       (filter is_availability_query
          (trace_of (poll_loop fuel park_name date interval email
                       max_attempts attempts w)))
     <= List.length
          (resolved_campgrounds
             (trace_of (poll_loop fuel park_name date interval email
                          max_attempts attempts w))))%nat /\
    (result_of (poll_loop fuel park_name date interval email
                  max_attempts attempts w) = Returned None ->
     checked_campgrounds
       (trace_of (poll_loop fuel park_name date interval email
                    max_attempts attempts w)) =
     resolved_campgrounds
       (trace_of (poll_loop fuel park_name date interval email
                    max_attempts attempts w))).
Proof.
  induction fuel as [| fuel IH]; intros attempts w.
  - cbn. split; [lia | discriminate].
  - rewrite poll_loop_step.
    destruct (attempts <? max_attempts); [| cbn; split; [lia | reflexivity]].
    rewrite poll_attempt_run. cbn zeta.
    match goal with
    | |- context [scan_campgrounds date email ?cs0 ?w1] =>
        remember cs0 as cs eqn:Hcs; clear Hcs;
        destruct (scan_campgrounds_coverage date email cs w1)
          as (Hcount & Hresolved & Hchecked);
        destruct (scan_campgrounds date email cs w1) as [[o w2] t]
    end.
    unfold trace_of, result_of in *. cbn [fst snd] in *.
    assert (Hhead : forall url params response rest,
      url = base_url ++ "/search" ->
      (List.length (filter is_availability_query rest)
       <= List.length cs + List.length (resolved_campgrounds rest))%nat ->
      (List.length
         (filter is_availability_query
            (EvGet url params response :: EvResolved cs :: rest))
       <= List.length
            (resolved_campgrounds
               (EvGet url params response :: EvResolved cs :: rest)))%nat).
    { intros url params response rest -> Hrest. cbn.
      rewrite length_app. exact Hrest. }
    assert (Hbase : (List.length (filter is_availability_query t)
                     <= List.length cs
                        + List.length (resolved_campgrounds t))%nat).
    { rewrite Hresolved. cbn [List.length]. lia. }
    destruct o as [[result |] | e |]; cbn [fst snd app];
      try (split; [apply Hhead; [reflexivity | exact Hbase] | discriminate]).
    destruct (attempts + 1 <? max_attempts); [destruct (interval <? 0) |];
      cbn [fst snd app];
      try (split; [apply Hhead; [reflexivity | exact Hbase] | discriminate]).
    + destruct (IH (attempts + 1) (sleep_world interval w2))
        as [IHcount IHchecked].
      destruct (poll_loop fuel _ _ _ _ _ _ _) as [[o3 w3] t3].
      cbn [fst snd app] in *. split.
      * apply Hhead; [reflexivity |].
        rewrite !filter_app, !resolved_campgrounds_app, !length_app,
          Hresolved. cbn. lia.
      * intros Hnone. cbn [checked_campgrounds resolved_campgrounds].
        rewrite !checked_campgrounds_app, !resolved_campgrounds_app,
          Hresolved, (Hchecked eq_refl), (IHchecked Hnone).
        cbn. rewrite ?app_nil_r. reflexivity.
    + destruct (IH (attempts + 1) w2) as [IHcount IHchecked].
      destruct (poll_loop fuel _ _ _ _ _ _ _) as [[o3 w3] t3].
      cbn [fst snd app] in *. split.
      * apply Hhead; [reflexivity |].
        rewrite !filter_app, !resolved_campgrounds_app, !length_app,
          Hresolved. cbn. lia.
      * intros Hnone. cbn [checked_campgrounds resolved_campgrounds].
        rewrite !checked_campgrounds_app, !resolved_campgrounds_app,
          Hresolved, (Hchecked eq_refl), (IHchecked Hnone).
        cbn. rewrite ?app_nil_r. reflexivity.
Qed.

(** X16. When [poll_availability] returns [None], it has checked, in every
    attempt, every campground that the resolver gave, in the resolver's
    order, and every check handed back an empty list. *)
Theorem poll_availability_exhaustive (park_name date : string) (interval : Z)
    (email : option string) (max_attempts : Z) (w : World) :
  result_of (poll_availability park_name date interval email max_attempts w) =
    Returned None ->
  checked_campgrounds
    (trace_of (poll_availability park_name date interval email
                 max_attempts w)) =
  resolved_campgrounds
    (trace_of (poll_availability park_name date interval email
                 max_attempts w)) /\
  forall c sites,
    In (EvChecked c sites)
       (trace_of (poll_availability park_name date interval email
                    max_attempts w)) ->
    sites = [].
Proof.
  unfold poll_availability. intros Hnone. split.
  - now apply poll_loop_coverage.
  - intros c sites Hin. destruct sites as [| s ss]; [reflexivity |].
    exfalso. apply in_split in Hin. destruct Hin as (pre & post & Htrace).
    pose proof (poll_loop_shape park_name date interval email max_attempts
                  (S (Z.to_nat max_attempts)) 0 w) as Hshape.
    rewrite Htrace in Hshape.
    destruct (first_hit _) as [[[c0 sites0] tail] |] eqn:Hhit;
      [| exact (first_hit_exists _ _ _ _ _ Hhit)].
    destruct Hshape as (Hfound & _). rewrite Hnone in Hfound.
    discriminate.
Qed.

(** X18. A run of [poll_availability] sends at most one availability
    request for each campground that the resolver gave: the number of
    requests to the availability endpoint never exceeds the number of
    campgrounds resolved over the attempts of the run. *)
Theorem poll_availability_request_bound (park_name date : string)
    (interval : Z) (email : option string) (max_attempts : Z) (w : World) :
  (List.length
     (filter is_availability_query
        (trace_of (poll_availability park_name date interval email
                     max_attempts w)))
   <= List.length
        (resolved_campgrounds
           (trace_of (poll_availability park_name date interval email
                        max_attempts w))))%nat.
Proof.
  unfold poll_availability. apply poll_loop_coverage.
Qed.

End PollCoverage.

Lemma poll_availability_exhaustive_witness :
  let run :=
    poll_availability "Yosemite" Examples.july_15 0 None 2
      (Scripted.world
         [Examples.two_campgrounds; Examples.july_full; Examples.july_full;
          Examples.one_campground; Examples.july_full]) in
  result_of run = Returned None /\
  checked_campgrounds (trace_of run) =
    [Examples.upper_pines; Examples.lower_pines; Examples.upper_pines].
Proof.
  cbv zeta.
  assert (Hnone :
    result_of (poll_availability "Yosemite" Examples.july_15 0 None 2
                 (Scripted.world
                    [Examples.two_campgrounds; Examples.july_full;
                     Examples.july_full; Examples.one_campground;
                     Examples.july_full])) = Returned None) by reflexivity.
  split; [exact Hnone |].
  rewrite (proj1 (poll_availability_exhaustive (RT := Scripted.runtime)
                    _ _ _ _ _ _ Hnone)).
  reflexivity.
Defined.
